(** * aigeon-search: the [news_search] tool of [server.py]

    A shallow embedding of [parse_val] and [news_search] and the properties
    of the parameter normalizer and of the search invoker.

    Python values are a small universe of JSON-like data.  A [str] is a
    Rocq [string], one [ascii] per code point, so the model covers the code
    points below 256.  A [float] is an IEEE-754 binary64 value, written as
    a [spec_float].  Exceptions carry their class and the text [str(e)]
    gives.  The remote service and the HTTP client library are an oracle
    that maps the request to what the client observes. *)

From Stdlib Require Import ZArith Ascii String List Bool Lia SpecFloat.
From stdpp Require Import base option list strings gmap pretty.

Local Open Scope string_scope.
Local Open Scope Z_scope.

(** ** Values *)

#[warnings="-register-all"]
Inductive PyVal : Type :=
| VNone
| VBool (b : bool)
| VInt (n : Z)
| VFloat (f : spec_float)
| VStr (s : string)
| VList (l : list PyVal)
| VDict (d : list (string * PyVal)).

(** The second argument of [parse_val]: [str], [int], [float], or any
    other object. *)
Inductive target_type : Type := T_str | T_int | T_float | T_other.

(** ** Exceptions *)

Inductive exn_class : Type :=
| BaseException | Exception | KeyboardInterrupt | CancelledError
| ArithmeticError | OverflowError | ValueError | TypeError | AttributeError
| TimeoutError | JSONDecodeError
| ClientError | ClientConnectionError | ClientResponseError
| ContentTypeError | InvalidURL.

#[global] Instance exn_class_eq_dec : EqDecision exn_class.
Proof. solve_decision. Defined.

(** Direct base classes, as the interpreter and aiohttp declare them. *)
Definition bases (c : exn_class) : list exn_class :=
  match c with
  | BaseException => []
  | Exception | KeyboardInterrupt | CancelledError => [BaseException]
  | ArithmeticError | ValueError | TypeError | AttributeError
  | TimeoutError | ClientError => [Exception]
  | OverflowError => [ArithmeticError]
  | JSONDecodeError => [ValueError]
  | ClientConnectionError | ClientResponseError => [ClientError]
  | ContentTypeError => [ClientResponseError]
  | InvalidURL => [ClientError; ValueError]
  end.

Fixpoint issubclass_upto (depth : nat) (c d : exn_class) : bool :=
  bool_decide (c = d) ||
  match depth with
  | O => false
  | S k => existsb (fun b => issubclass_upto k b d) (bases c)
  end.

(** No class is more than four steps below [BaseException]. *)
Definition issubclass (c d : exn_class) : bool := issubclass_upto 4 c d.

Record PyExc : Type := mkExc { exc_class : exn_class; exc_str : string }.

(** [except (c1, c2, ...)] matches an exception of any subclass. *)
Definition isinstance_exc (e : PyExc) (classes : list exn_class) : bool :=
  existsb (issubclass (exc_class e)) classes.

(** ** Programs

    A computation returns, raises, sends one HTTP request and continues
    with what the client observed, or hands a record to the logging
    module. *)

Record request : Type := mkRequest {
  req_method : string;
  req_url : string;
  req_params : gmap string PyVal;
  req_timeout : Z;
  req_raise_for_status : bool;
  req_headers : gmap string PyVal
}.

(** A received response: its status code, the text of the
    [ClientResponseError] that [raise_for_status()] builds from it, and
    what [await r.json()] evaluates to. *)
Record response : Type := mkResponse {
  resp_status : Z;
  resp_error_str : string;
  resp_json : PyVal + PyExc
}.

(** What the client observes for a request: an exception before any
    response (building the request, connecting, timing out), or a
    response. *)
Inductive http_outcome : Type :=
| NoResponse (e : PyExc)
| Responded (r : response).

Inductive prog (A : Type) : Type :=
| Ret (a : A)
| Throw (e : PyExc)
| HttpGet (r : request) (k : http_outcome -> prog A)
| LogWarning (msg : string) (exc_info : PyExc) (k : prog A).

Arguments Ret {A} a.
Arguments Throw {A} e.
Arguments HttpGet {A} r k.
Arguments LogWarning {A} msg exc_info k.

Fixpoint bind {A B : Type} (p : prog A) (f : A -> prog B) : prog B :=
  match p with
  | Ret a => f a
  | Throw e => Throw e
  | HttpGet r k => HttpGet r (fun o => bind (k o) f)
  | LogWarning m e k => LogWarning m e (bind k f)
  end.

#[global] Instance prog_ret : MRet prog := fun A a => Ret a.
#[global] Instance prog_bind : MBind prog := fun A B f p => bind p f.

(** [try: body except classes as e: handler e]. *)
Fixpoint try_except {A : Type} (body : prog A) (classes : list exn_class)
    (handler : PyExc -> prog A) : prog A :=
  match body with
  | Ret a => Ret a
  | Throw e => if isinstance_exc e classes then handler e else Throw e
  | HttpGet r k => HttpGet r (fun o => try_except (k o) classes handler)
  | LogWarning m e k => LogWarning m e (try_except k classes handler)
  end.

(** Running a program against a remote: the events in order and how the
    call ends. *)
Inductive event : Type :=
| Requested (r : request)
| Logged (msg : string) (exc_info : PyExc).

Inductive completion (A : Type) : Type :=
| Returned (a : A)
| Raised (e : PyExc).

Arguments Returned {A} a.
Arguments Raised {A} e.

Fixpoint run {A : Type} (remote : request -> http_outcome) (p : prog A)
    : list event * completion A :=
  match p with
  | Ret a => ([], Returned a)
  | Throw e => ([], Raised e)
  | HttpGet r k =>
      let '(t, c) := run remote (k (remote r)) in (Requested r :: t, c)
  | LogWarning m e k =>
      let '(t, c) := run remote k in (Logged m e :: t, c)
  end.

Definition requests_of (t : list event) : list request :=
  omap (fun ev => match ev with Requested r => Some r | _ => None end) t.

(** ** Builtins

    [repr] of floats and containers and [float] of a string are the
    interpreter's own algorithms (shortest round-trip printing, correctly
    rounded decimal parsing); the model takes them as given.  Printing a
    container prints its elements, so it fails as printing an integer
    does when an element is over the digit limit.  Nesting deeper than
    the interpreter's recursion limit is outside the model: the
    properties of the [str] coercion that would depend on it are stated
    for values that are no list or dict. *)

Class Builtins : Type := {
  py_repr : PyVal -> string;
  float_of_str : string -> option spec_float
}.

Definition raise {A : Type} (c : exn_class) (msg : string) : prog A :=
  Throw (mkExc c msg).

(** [sys.int_info.default_max_str_digits]. *)
Definition max_str_digits : nat := 4300.

(** The value is, or holds at some depth, an integer with more digits than
    the limit: printing it raises [ValueError]. *)
Fixpoint has_oversized_int (v : PyVal) : bool :=
  match v with
  | VInt n => (max_str_digits <? String.length (pretty (Z.abs n)))%nat
  | VList l => existsb has_oversized_int l
  | VDict d => existsb (fun '(_, x) => has_oversized_int x) d
  | VNone | VBool _ | VFloat _ | VStr _ => false
  end.

Definition code (c : ascii) : Z := Z.of_N (N_of_ascii c).

(** Whitespace that [int()] strips: tab to carriage return, space, and
    the two spaces above 127 (NEL and NBSP). *)
Definition is_space (c : ascii) : bool :=
  let n := code c in
  ((9 <=? n) && (n <=? 13)) || (n =? 32) || (n =? 133) || (n =? 160).

Definition digit_of (c : ascii) : option Z :=
  let n := code c in
  if (48 <=? n) && (n <=? 57) then Some (n - 48) else None.

Fixpoint lstrip (s : string) : string :=
  match s with
  | String c s' => if is_space c then lstrip s' else s
  | EmptyString => EmptyString
  end.

Fixpoint all_space (s : string) : bool :=
  match s with
  | String c s' => is_space c && all_space s'
  | EmptyString => true
  end.

(** Digits with single underscores between them.  [need_digit] holds at
    the start and just after an underscore.  Gives the value, the number
    of digits and what follows. *)
Fixpoint scan_digits (s : string) (acc : Z) (count : nat) (need_digit : bool)
    : option (Z * nat * string) :=
  match s with
  | String c s' =>
      match digit_of c with
      | Some d => scan_digits s' (10 * acc + d) (S count) false
      | None =>
          if Ascii.eqb c "_" then
            if need_digit then None else scan_digits s' acc count true
          else if need_digit then None else Some (acc, count, s)
      end
  | EmptyString => if need_digit then None else Some (acc, count, EmptyString)
  end.

(** [int(s)] in base ten: the number of digits read and the value, or
    [None] for an invalid literal. *)
Definition int_of_str (s : string) : option (nat * Z) :=
  let s1 := lstrip s in
  let '(neg, s2) :=
    match s1 with
    | String c r =>
        if Ascii.eqb c "-" then (true, r)
        else if Ascii.eqb c "+" then (false, r) else (false, s1)
    | EmptyString => (false, s1)
    end in
  match scan_digits s2 0 0 true with
  | Some (n, count, rest) =>
      if all_space rest then Some (count, if neg then - n else n) else None
  | None => None
  end.

(** [int(f)] of a finite float: the integer part of [m * 2^e]. *)
Definition float_trunc (s : bool) (m : positive) (e : Z) : Z :=
  let magnitude :=
    if 0 <=? e then Z.pos m * 2 ^ e else Z.pos m / 2 ^ (- e) in
  if s then - magnitude else magnitude.

(** The binary64 value nearest to an integer. *)
Definition float_of_Z (n : Z) : spec_float := binary_normalize 53 1024 n 0 false.

(** [s.replace(old, new)] for a non-empty [old]: occurrences are found
    left to right and do not overlap; [skip] counts the characters of a
    match still to be dropped. *)
Fixpoint replace_from (old new : string) (skip : nat) (s : string) : string :=
  match s with
  | EmptyString => EmptyString
  | String c s' =>
      match skip with
      | S k => replace_from old new k s'
      | O =>
          if String.prefix old s
          then new +:+ replace_from old new (String.length old - 1) s'
          else String c (replace_from old new O s')
      end
  end.

(** With an empty [old], [new] goes before every character and at the
    end. *)
Fixpoint intersperse (new s : string) : string :=
  match s with
  | EmptyString => new
  | String c s' => new +:+ String c (intersperse new s')
  end.

Definition str_replace (s old new : string) : string :=
  match old with
  | EmptyString => intersperse new s
  | _ => replace_from old new O s
  end.

Section Interpreter.
Context `{Builtins}.

Definition py_str (v : PyVal) : prog PyVal :=
  match v with
  | VStr s => Ret (VStr s)
  | VBool b => Ret (VStr (if b then "True" else "False"))
  | VInt n =>
      if (max_str_digits <? String.length (pretty (Z.abs n)))%nat
      then raise ValueError
             "Exceeds the limit (4300 digits) for integer string conversion; use sys.set_int_max_str_digits() to increase the limit"
      else Ret (VStr (pretty n))
  | VNone => Ret (VStr "None")
  | VFloat _ => Ret (VStr (py_repr v))
  | VList _ | VDict _ =>
      if has_oversized_int v
      then raise ValueError
             "Exceeds the limit (4300 digits) for integer string conversion; use sys.set_int_max_str_digits() to increase the limit"
      else Ret (VStr (py_repr v))
  end.

Definition py_int (v : PyVal) : prog PyVal :=
  match v with
  | VBool b => Ret (VInt (if b then 1 else 0))
  | VInt n => Ret (VInt n)
  | VFloat f =>
      match f with
      | S754_zero _ => Ret (VInt 0)
      | S754_finite s m e => Ret (VInt (float_trunc s m e))
      | S754_infinity _ =>
          raise OverflowError "cannot convert float infinity to integer"
      | S754_nan => raise ValueError "cannot convert float NaN to integer"
      end
  | VStr s =>
      match int_of_str s with
      | Some (count, n) =>
          if (max_str_digits <? count)%nat
          then raise ValueError
                 ("Exceeds the limit (4300 digits) for integer string conversion: value has "
                  +:+ pretty count
                  +:+ " digits; use sys.set_int_max_str_digits() to increase the limit")
          else Ret (VInt n)
      | None =>
          raise ValueError
            ("invalid literal for int() with base 10: " +:+ py_repr v)
      end
  | VNone | VList _ | VDict _ =>
      raise TypeError
        "int() argument must be a string, a bytes-like object or a real number"
  end.

Definition py_float (v : PyVal) : prog PyVal :=
  match v with
  | VBool b => Ret (VFloat (float_of_Z (if b then 1 else 0)))
  | VInt n =>
      match float_of_Z n with
      | S754_infinity _ =>
          raise OverflowError "int too large to convert to float"
      | f => Ret (VFloat f)
      end
  | VFloat f => Ret (VFloat f)
  | VStr s =>
      match float_of_str s with
      | Some f => Ret (VFloat f)
      | None =>
          raise ValueError
            ("could not convert string to float: " +:+ py_repr v)
      end
  | VNone | VList _ | VDict _ =>
      raise TypeError "float() argument must be a string or a real number"
  end.

(** Truth value, as [if v:] tests it. *)
Definition truthy (v : PyVal) : bool :=
  match v with
  | VNone => false
  | VBool b => b
  | VInt n => negb (n =? 0)
  | VFloat (S754_zero _) => false
  | VFloat _ => true
  | VStr s => negb (String.eqb s "")
  | VList l => match l with [] => false | _ => true end
  | VDict d => match d with [] => false | _ => true end
  end.

(** The method call [v.replace(old, new)]; only a [str] has it. *)
Definition replace (v : PyVal) (old new : string) : prog PyVal :=
  match v with
  | VStr s => Ret (VStr (str_replace s old new))
  | _ => raise AttributeError "object has no attribute 'replace'"
  end.

(** ** [parse_val] *)

Definition parse_val (value : PyVal) (target : target_type) : prog PyVal :=
  match value with
  | VNone => Ret VNone
  | _ =>
      try_except
        (match target with
         | T_str => py_str value
         | T_int => py_int value
         | T_float => py_float value
         | T_other => Ret value
         end)
        [ValueError; TypeError]
        (fun _ => Ret VNone)
  end.

End Interpreter.

(** ** The HTTP client

    [session.get(url, params=, timeout=, raise_for_status=, headers=)]
    sends one GET request.  An exception before a response is raised as it
    is.  With [raise_for_status] set, the client raises
    [ClientResponseError] for a response that is not [ok], and a response
    is [ok] when its status is below 400. *)

Definition ok (r : response) : bool := resp_status r <? 400.

Definition session_get (url : string) (params : gmap string PyVal)
    (timeout : Z) (raise_for_status : bool) (headers : gmap string PyVal)
    : prog response :=
  HttpGet (mkRequest "GET" url params timeout raise_for_status headers)
    (fun o =>
       match o with
       | NoResponse e => Throw e
       | Responded r =>
           if raise_for_status && negb (ok r)
           then raise ClientResponseError (resp_error_str r)
           else Ret r
       end).

(** [await r.json()]. *)
Definition json (r : response) : prog PyVal :=
  match resp_json r with
  | inl v => Ret v
  | inr e => Throw e
  end.

(** [isinstance(v, list)]. *)
Definition is_list (v : PyVal) : bool :=
  match v with VList _ => true | _ => false end.

Definition is_None (v : PyVal) : bool :=
  match v with VNone => true | _ => false end.

(** [os.getenv(name)] on the process environment, after [load_dotenv()]. *)
Definition getenv (environ : gmap string string) (name : string) : PyVal :=
  match environ !! name with
  | Some s => VStr s
  | None => VNone
  end.

(** ** [news_search]

    The body of the function, block by block in the order of the source:
    the five coercions, the location clean-up, the parameter dictionary,
    and the guarded request. *)

Section NewsSearch.
Context `{Builtins} (environ : gmap string string).

Definition rapid_api_key : PyVal := getenv environ "RAPID_API_KEY".

Definition url : string :=
  "https://aigeon-news-search1.p.rapidapi.com/api/search".

Definition headers : gmap string PyVal :=
  <["x-rapidapi-key" := rapid_api_key]>
    (<["x-rapidapi-host" := VStr "aigeon-news-search1.p.rapidapi.com"]> ∅).

(** Process location parameter (replace underscores and commas with
    spaces). *)
Definition process_location (location_val : PyVal) : prog PyVal :=
  if truthy location_val
  then v ← replace location_val "_" " "; replace v "," " "
  else Ret location_val.

(** Build request parameters, then add optional parameters if provided. *)
Definition build_params
    (query size_val location_val latitude_val longitude_val : PyVal)
    : gmap string PyVal :=
  let params : gmap string PyVal :=
    <["size" := size_val]> (<["q" := query]> ∅) in
  let params :=
    if truthy location_val then <["location" := location_val]> params
    else params in
  let params :=
    if negb (is_None latitude_val) then <["latitude" := latitude_val]> params
    else params in
  let params :=
    if negb (is_None longitude_val)
    then <["longitude" := longitude_val]> params
    else params in
  params.

(** The object returned from the [except] branch. *)
Definition failed (e : PyExc) : PyVal :=
  VDict [("status", VStr "failed"); ("reason", VStr (exc_str e))].

(** Make the API request. *)
Definition api_request (params : gmap string PyVal) : prog PyVal :=
  try_except
    (r ← session_get url params 5 true headers;
     response ← json r;
     if is_list response then Ret (VDict [("result", response)])
     else Ret response)
    [Exception]
    (fun e => LogWarning "" e (Ret (failed e))).

Definition news_search (q size location latitude longitude : PyVal)
    : prog PyVal :=
  query ← parse_val q T_str;
  size_val ← parse_val size T_int;
  location_val ← parse_val location T_str;
  latitude_val ← parse_val latitude T_float;
  longitude_val ← parse_val longitude T_float;
  location_val ← process_location location_val;
  api_request
    (build_params query size_val location_val latitude_val longitude_val).

(** The call with the defaults of the signature: [size=10] and no
    location or coordinates. *)
Definition news_search_default (q : PyVal) : prog PyVal :=
  news_search q (VInt 10) VNone VNone VNone.

End NewsSearch.

(** ** Vocabulary of the properties *)

(** Every character equal to [old] replaced by [new], one for one. *)
Fixpoint replace_every (old new : ascii) (s : string) : string :=
  match s with
  | EmptyString => EmptyString
  | String c s' =>
      String (if Ascii.eqb c old then new else c) (replace_every old new s')
  end.

Fixpoint occurs (a : ascii) (s : string) : bool :=
  match s with
  | EmptyString => false
  | String c s' => Ascii.eqb c a || occurs a s'
  end.

(** [n] is the integer part of the float with sign [s], mantissa [m] and
    exponent [e]: it has the sign of the float and
    [|n| <= m * 2^e < |n| + 1], written without fractions. *)
Definition integer_part (s : bool) (m : positive) (e : Z) (n : Z) : Prop :=
  (if s then n <= 0 else 0 <= n)
  /\ Z.abs n * 2 ^ Z.max 0 (- e) <= Z.pos m * 2 ^ Z.max 0 e
  /\ Z.pos m * 2 ^ Z.max 0 e < (Z.abs n + 1) * 2 ^ Z.max 0 (- e).

(** The request that [news_search] sends for a parameter dictionary. *)
Definition the_request (environ : gmap string string)
    (params : gmap string PyVal) : request :=
  mkRequest "GET" url params 5 true (headers environ).

(** The ways the request and response path fails, with the exception
    raised inside the [try] block: no response at all (the request could
    not be built or sent, the network failed, the timeout elapsed), a
    response with an error status, or a body that does not decode. *)
Inductive remote_failure : http_outcome -> PyExc -> Prop :=
| failure_no_response (e : PyExc) :
    remote_failure (NoResponse e) e
| failure_status (resp : response) :
    400 <= resp_status resp ->
    remote_failure (Responded resp)
      (mkExc ClientResponseError (resp_error_str resp))
| failure_decode (resp : response) (e : PyExc) :
    resp_status resp < 400 ->
    resp_json resp = inr e ->
    remote_failure (Responded resp) e.

(** The exception classes of those failures. *)
Definition request_error_classes : list exn_class :=
  [TimeoutError; ClientError; ClientConnectionError; ClientResponseError;
   ContentTypeError; InvalidURL; JSONDecodeError; ValueError; TypeError].

Definition is_dict (v : PyVal) : bool :=
  match v with VDict _ => true | _ => false end.

(** What a call makes of the outcome of its one request, read off the
    outcome alone: the log records written after the request and how the
    call ends.  An error is logged and turned into the failure object when
    it is an [Exception], and is raised otherwise; a body is wrapped when
    it is a list. *)
Definition error_result (e : PyExc) : list event * completion PyVal :=
  if issubclass (exc_class e) Exception
  then ([Logged "" e],
        Returned
          (VDict [("status", VStr "failed"); ("reason", VStr (exc_str e))]))
  else ([], Raised e).

Definition outcome_result (o : http_outcome)
    : list event * completion PyVal :=
  match o with
  | NoResponse e => error_result e
  | Responded resp =>
      if 400 <=? resp_status resp
      then error_result (mkExc ClientResponseError (resp_error_str resp))
      else
        match resp_json resp with
        | inl body =>
            ([], Returned
                   (if is_list body then VDict [("result", body)] else body))
        | inr e => error_result e
        end
  end.

(** ** Sample data *)

(** An interpreter for inputs on which neither builtin is consulted. *)
Definition plain_builtins : Builtins :=
  {| py_repr := fun _ => "<object>"; float_of_str := fun _ => None |}.

(** The binary64 values nearest to 10.9 and to 10.5. *)
Definition float_10_9 : spec_float := S754_finite false 6136154492292301 (-49).
Definition float_10_5 : spec_float := S754_finite false 5910974510923776 (-49).

Definition positive_infinity : spec_float := S754_infinity false.

Definition remote_timeout : request -> http_outcome :=
  fun _ => NoResponse (mkExc TimeoutError "").

Definition remote_articles : request -> http_outcome :=
  fun _ =>
    Responded
      (mkResponse 200 ""
         (inl (VList [VDict [("title", VStr "A")]; VDict [("title", VStr "B")]]))).

Definition remote_object : request -> http_outcome :=
  fun _ =>
    Responded (mkResponse 200 "" (inl (VDict [("total", VInt 0)]))).

Definition remote_scalar : request -> http_outcome :=
  fun _ => Responded (mkResponse 200 "" (inl (VStr "ok"))).

Definition response_unauthorized : response :=
  mkResponse 401 "401, message='Unauthorized'"
    (inl (VDict [("message", VStr "Invalid API key")])).

Definition remote_unauthorized : request -> http_outcome :=
  fun _ => Responded response_unauthorized.

(** A 300 Multiple Choices response with a JSON object body. *)
Definition response_multiple_choices : response :=
  mkResponse 300 "300, message='Multiple Choices'"
    (inl (VDict [("choices", VList [])])).

Definition remote_multiple_choices : request -> http_outcome :=
  fun _ => Responded response_multiple_choices.

(** The call [news_search("election")] and the request it sends, with no
    key in the environment. *)
Definition sample_call : prog PyVal :=
  @news_search_default plain_builtins ∅ (VStr "election").

Definition sample_request : request :=
  the_request ∅
    (@build_params (VStr "election") (VInt 10) VNone VNone VNone).

(** The call [news_search("election", location="Los_Angeles, CA")]. *)
Definition sample_located_call : prog PyVal :=
  @news_search plain_builtins ∅ (VStr "election") (VInt 10)
    (VStr "Los_Angeles, CA") VNone VNone.

Definition sample_located_request : request :=
  the_request ∅
    (@build_params (VStr "election") (VInt 10) (VStr "Los Angeles  CA")
       VNone VNone).

(** An environment that holds the key, the call [news_search("election")]
    in it, and the request that call sends. *)
Definition keyed_environ : gmap string string :=
  {["RAPID_API_KEY" := "0123456789abcdef"]}.

Definition keyed_call : prog PyVal :=
  @news_search_default plain_builtins keyed_environ (VStr "election").

Definition keyed_request : request :=
  the_request keyed_environ
    (@build_params (VStr "election") (VInt 10) VNone VNone VNone).

(** ** Vocabulary of the further properties *)

(** A list or a dict. *)
Definition is_container (v : PyVal) : bool :=
  match v with VList _ | VDict _ => true | _ => false end.

(** A string of decimal digits, and the number it reads as after [acc]. *)
Fixpoint all_digits (s : string) : bool :=
  match s with
  | EmptyString => true
  | String c s' =>
      match digit_of c with Some _ => all_digits s' | None => false end
  end.

Fixpoint digits_value (acc : Z) (s : string) : Z :=
  match s with
  | EmptyString => acc
  | String c s' =>
      match digit_of c with
      | Some d => digits_value (10 * acc + d) s'
      | None => acc
      end
  end.

(** [x] is an instance of the target type; any value is one of an unknown
    target. *)
Definition has_target_type (t : target_type) (x : PyVal) : bool :=
  match t, x with
  | T_str, VStr _ | T_int, VInt _ | T_float, VFloat _ | T_other, _ => true
  | _, _ => false
  end.

(** The inputs on which a conversion overflows: an infinite float to
    [int], an integer beyond the largest float to [float]. *)
Definition overflows (v : PyVal) (t : target_type) : bool :=
  match t, v with
  | T_int, VFloat (S754_infinity _) => true
  | T_float, VInt n =>
      match float_of_Z n with S754_infinity _ => true | _ => false end
  | _, _ => false
  end.

(** The result of the [try] block for a decoded body. *)
Definition wrapped (body : PyVal) : PyVal :=
  if is_list body then VDict [("result", body)] else body.

(** The four ways a call of [news_search] against [remote] can go. *)
Inductive call_shape (remote : request -> http_outcome)
    : list event * completion PyVal -> Prop :=
| shape_coercion_raised (msg : string) :
    call_shape remote ([], Raised (mkExc OverflowError msg))
| shape_succeeded (r : request) (resp : response) (body : PyVal) :
    remote r = Responded resp ->
    resp_status resp < 400 ->
    resp_json resp = inl body ->
    call_shape remote ([Requested r], Returned (wrapped body))
| shape_failed (r : request) (e : PyExc) :
    remote_failure (remote r) e ->
    issubclass (exc_class e) Exception = true ->
    call_shape remote
      ([Requested r; Logged "" e],
       Returned
         (VDict [("status", VStr "failed"); ("reason", VStr (exc_str e))]))
| shape_propagated (r : request) (e : PyExc) :
    remote_failure (remote r) e ->
    issubclass (exc_class e) Exception = false ->
    call_shape remote ([Requested r], Raised e).

Definition remote_cancelled : request -> http_outcome :=
  fun _ => NoResponse (mkExc CancelledError "").

(** The call [news_search("election", 0, "Paris", 10.9, nan)]. *)
Definition sample_numeric_call : prog PyVal :=
  @news_search plain_builtins ∅ (VStr "election") (VInt 0) (VStr "Paris")
    (VFloat float_10_9) (VFloat S754_nan).

Definition sample_numeric_request : request :=
  the_request ∅
    (@build_params (VStr "election") (VInt 0) (VStr "Paris")
       (VFloat float_10_9) (VFloat S754_nan)).

(** ** Exception classes *)

Lemma request_errors_are_exceptions (c : exn_class) :
  c ∈ request_error_classes -> issubclass c Exception = true.
Proof.
  unfold request_error_classes. intros Hc.
  repeat (apply elem_of_cons in Hc as [-> | Hc]; [reflexivity |]).
  inversion Hc.
Qed.

Lemma overflow_not_caught_by_parse_val (msg : string) :
  isinstance_exc (mkExc OverflowError msg) [ValueError; TypeError] = false.
Proof. reflexivity. Qed.

Lemma cancellation_is_not_an_exception :
  issubclass CancelledError Exception = false.
Proof. reflexivity. Qed.

(** ** Strings *)

Lemma prefix_empty (s : string) : String.prefix "" s = true.
Proof. destruct s; reflexivity. Qed.

Lemma str_replace_char (s : string) (a b : ascii) :
  str_replace s (String a "") (String b "") = replace_every a b s.
Proof.
  unfold str_replace.
  induction s as [| c s IH]; simpl; [reflexivity |].
  destruct (ascii_dec a c) as [-> | Hne].
  - rewrite Ascii.eqb_refl, prefix_empty. simpl. rewrite IH. reflexivity.
  - destruct (Ascii.eqb_spec c a) as [-> | _]; [congruence |].
    rewrite IH. reflexivity.
Qed.

Lemma replace_every_length (a b : ascii) (s : string) :
  String.length (replace_every a b s) = String.length s.
Proof. induction s; simpl; congruence. Qed.

Lemma replace_every_get (a b : ascii) (s : string) (i : nat) :
  String.get i (replace_every a b s)
  = (fun c => if Ascii.eqb c a then b else c) <$> String.get i s.
Proof.
  revert i. induction s as [| c s IH]; intros [| i]; simpl; auto.
Qed.

Lemma replace_every_occurs (a b : ascii) (s : string) :
  a <> b -> occurs a (replace_every a b s) = false.
Proof.
  intros Hab. induction s as [| c s IH]; simpl; [reflexivity |].
  rewrite IH, orb_false_r.
  destruct (Ascii.eqb_spec c a) as [-> | Hc]; apply Ascii.eqb_neq; congruence.
Qed.

Lemma replace_every_keeps_absent (a b x : ascii) (s : string) :
  x <> b -> occurs x s = false -> occurs x (replace_every a b s) = false.
Proof.
  intros Hxb. induction s as [| c s IH]; simpl; [reflexivity |].
  intros [Hc Hs]%orb_false_iff. rewrite (IH Hs), orb_false_r.
  destruct (Ascii.eqb c a); [| exact Hc].
  apply Ascii.eqb_neq. congruence.
Qed.

Lemma replace_every_empty (a b : ascii) (s : string) :
  String.eqb (replace_every a b s) "" = String.eqb s "".
Proof. destruct s; reflexivity. Qed.

(** ** Integer literals with a decimal point *)

Lemma lstrip_keeps_dot (s : string) :
  occurs "." s = true -> occurs "." (lstrip s) = true.
Proof.
  induction s as [| c s IH]; simpl; [done |].
  destruct (is_space c) eqn:Hsp; [| done].
  destruct (Ascii.eqb_spec c ".") as [-> | _]; [discriminate Hsp |].
  exact IH.
Qed.

Lemma all_space_no_dot (s : string) :
  occurs "." s = true -> all_space s = false.
Proof.
  induction s as [| c s IH]; simpl; [done |].
  destruct (Ascii.eqb_spec c ".") as [-> | _]; [reflexivity |].
  simpl. intros Hs. rewrite (IH Hs). apply andb_false_r.
Qed.

Lemma scan_digits_keeps_dot (s : string) (acc : Z) (count : nat)
    (need_digit : bool) :
  occurs "." s = true ->
  match scan_digits s acc count need_digit with
  | Some (_, _, rest) => occurs "." rest = true
  | None => True
  end.
Proof.
  revert acc count need_digit.
  induction s as [| c s IH]; intros acc count need_digit; simpl; [done |].
  intros Hdot.
  destruct (Ascii.eqb_spec c ".") as [-> | Hc].
  - simpl. destruct need_digit; [done |]. simpl. reflexivity.
  - simpl in Hdot.
    destruct (digit_of c); [apply IH; exact Hdot |].
    destruct (Ascii.eqb c "_").
    + destruct need_digit; [done | apply IH; exact Hdot].
    + destruct need_digit; [done |]. simpl.
      destruct (Ascii.eqb_spec c "."); [congruence | exact Hdot].
Qed.

Lemma int_of_str_dot (s : string) :
  occurs "." s = true -> int_of_str s = None.
Proof.
  intros Hdot%lstrip_keeps_dot. unfold int_of_str.
  destruct (lstrip s) as [| c r]; [discriminate Hdot |].
  assert (Hscan : forall t neg, occurs "." t = true ->
    match scan_digits t 0 0%nat true with
    | Some (n, count, rest) =>
        if all_space rest then Some (count, if neg : bool then - n else n)
        else None
    | None => None
    end = None).
  { intros t neg Ht.
    pose proof (scan_digits_keeps_dot t 0 0%nat true Ht) as Hk.
    destruct (scan_digits t 0 0%nat true) as [[[n count] rest] |]; [| done].
    rewrite (all_space_no_dot _ Hk). reflexivity. }
  simpl in Hdot.
  destruct (Ascii.eqb_spec c "-") as [-> | _];
    [apply (Hscan r true); exact Hdot |].
  destruct (Ascii.eqb_spec c "+") as [-> | _];
    [apply (Hscan r false); exact Hdot |].
  apply (Hscan (String c r) false). simpl. exact Hdot.
Qed.

(** ** Truncation *)

Lemma float_trunc_integer_part (s : bool) (m : positive) (e : Z) :
  integer_part s m e (float_trunc s m e).
Proof.
  unfold integer_part, float_trunc.
  destruct (Z.leb_spec 0 e) as [He | He].
  - rewrite (Z.max_r 0 e), (Z.max_l 0 (- e)) by lia.
    assert (0 <= Z.pos m * 2 ^ e) by (apply Z.mul_nonneg_nonneg; lia).
    destruct s; (split; [lia |]).
    + rewrite Z.abs_opp, Z.abs_eq by lia. simpl (2 ^ 0). lia.
    + rewrite Z.abs_eq by lia. simpl (2 ^ 0). lia.
  - rewrite (Z.max_l 0 e), (Z.max_r 0 (- e)) by lia.
    assert (Hd : 0 < 2 ^ (- e)) by (apply Z.pow_pos_nonneg; lia).
    assert (Hq : 0 <= Z.pos m / 2 ^ (- e)) by (apply Z.div_pos; lia).
    pose proof (Z.mul_div_le (Z.pos m) _ Hd) as Hle.
    pose proof (Z.mul_succ_div_gt (Z.pos m) _ Hd) as Hgt.
    destruct s; (split; [lia |]).
    + rewrite Z.abs_opp, Z.abs_eq by lia. simpl (2 ^ 0). lia.
    + rewrite Z.abs_eq by lia. simpl (2 ^ 0). lia.
Qed.

(** ** The coercions *)

Section Coercion.
Context `{Builtins}.

Lemma parse_val_None (t : target_type) : parse_val VNone t = Ret VNone.
Proof. reflexivity. Qed.

Lemma parse_val_str (v : PyVal) :
  exists x, parse_val v T_str = Ret x /\ (x = VNone \/ exists s, x = VStr s).
Proof.
  destruct v; simpl; eauto;
    match goal with
    | |- context [if ?c then _ else _] => destruct c
    end; simpl; eauto.
Qed.

Lemma parse_val_int (v : PyVal) :
  (exists x, parse_val v T_int = Ret x /\ (x = VNone \/ exists n, x = VInt n))
  \/ (exists s, v = VFloat (S754_infinity s)
        /\ parse_val v T_int
           = raise OverflowError "cannot convert float infinity to integer").
Proof.
  destruct v as [| b | n | f | s | l | d]; simpl; eauto 7.
  - destruct f; simpl; eauto 7.
  - destruct (int_of_str s) as [[c n]|]; simpl; eauto 7.
    destruct (_ <? _)%nat; simpl; eauto 7.
Qed.

Lemma parse_val_float (v : PyVal) :
  (exists x,
      parse_val v T_float = Ret x /\ (x = VNone \/ exists f, x = VFloat f))
  \/ (exists n s, v = VInt n /\ float_of_Z n = S754_infinity s
        /\ parse_val v T_float
           = raise OverflowError "int too large to convert to float").
Proof.
  destruct v as [| b | n | f | s | l | d]; simpl; eauto 7.
  - destruct (float_of_Z n) eqn:E; simpl; eauto 9.
  - destruct (float_of_str s); simpl; eauto 7.
Qed.

Lemma parse_val_other (v : PyVal) : parse_val v T_other = Ret v.
Proof. destruct v; reflexivity. Qed.

(** A coercion returns, or raises [OverflowError]. *)
Lemma parse_val_returns_or_overflows (v : PyVal) (t : target_type) :
  (exists x, parse_val v t = Ret x)
  \/ (exists msg, parse_val v t = raise OverflowError msg).
Proof.
  destruct t.
  - destruct (parse_val_str v) as (x & Hx & _); eauto.
  - destruct (parse_val_int v) as [(x & Hx & _) | (s & _ & Hx)]; eauto.
  - destruct (parse_val_float v) as [(x & Hx & _) | (n & s & _ & _ & Hx)];
      eauto.
  - rewrite parse_val_other; eauto.
Qed.

(** A string that is no integer literal coerces to [None]. *)
Lemma parse_val_int_invalid_literal (s : string) :
  int_of_str s = None -> parse_val (VStr s) T_int = Ret VNone.
Proof. intros Hs. simpl. rewrite Hs. reflexivity. Qed.

#[local] Arguments str_replace : simpl never.

Lemma process_location_None : process_location VNone = Ret VNone.
Proof. reflexivity. Qed.

Lemma process_location_empty : process_location (VStr "") = Ret (VStr "").
Proof. reflexivity. Qed.

Lemma process_location_str (s : string) :
  s <> "" ->
  process_location (VStr s)
  = Ret (VStr (replace_every "," " " (replace_every "_" " " s))).
Proof.
  intros Hs. unfold process_location. simpl.
  destruct (String.eqb_spec s "") as [-> | _]; [congruence |]. simpl.
  rewrite !str_replace_char. reflexivity.
Qed.

Lemma process_location_truthy (v v' : PyVal) :
  v = VNone \/ (exists s, v = VStr s) ->
  process_location v = Ret v' -> truthy v' = truthy v.
Proof.
  intros [-> | [s ->]].
  - rewrite process_location_None. congruence.
  - destruct (String.eqb_spec s "") as [-> | Hs].
    + rewrite process_location_empty. congruence.
    + rewrite (process_location_str s Hs). intros [= <-]. simpl.
      rewrite !replace_every_empty. reflexivity.
Qed.

End Coercion.

(** ** The guarded request *)

Section Request.
Context `{Builtins} (environ : gmap string string).

(** What a run of the [try] block gives, by the outcome of the request. *)
Lemma run_api_request (remote : request -> http_outcome)
    (params : gmap string PyVal) :
  run remote (api_request environ params) =
  let r := the_request environ params in
  match remote r with
  | NoResponse e =>
      if issubclass (exc_class e) Exception
      then ([Requested r; Logged "" e], Returned (failed e))
      else ([Requested r], Raised e)
  | Responded resp =>
      if resp_status resp <? 400 then
        match resp_json resp with
        | inl v =>
            ([Requested r],
             Returned (if is_list v then VDict [("result", v)] else v))
        | inr e =>
            if issubclass (exc_class e) Exception
            then ([Requested r; Logged "" e], Returned (failed e))
            else ([Requested r], Raised e)
        end
      else
        let e := mkExc ClientResponseError (resp_error_str resp) in
        ([Requested r; Logged "" e], Returned (failed e))
  end.
Proof.
  unfold api_request, session_get, the_request. simpl.
  destruct (remote _) as [e | resp]; simpl.
  - unfold isinstance_exc. simpl. rewrite orb_false_r.
    destruct (issubclass _ _); reflexivity.
  - unfold ok. destruct (resp_status resp <? 400); simpl; [| reflexivity].
    unfold json. destruct (resp_json resp) as [v | e]; simpl.
    + destruct (is_list v); reflexivity.
    + unfold isinstance_exc. simpl. rewrite orb_false_r.
      destruct (issubclass _ _); reflexivity.
Qed.

(** The [try] block sends exactly one request. *)
Lemma requests_of_api_request (remote : request -> http_outcome)
    (params : gmap string PyVal) :
  requests_of (run remote (api_request environ params)).1
  = [the_request environ params].
Proof.
  rewrite run_api_request. cbv zeta.
  destruct (remote _) as [e | resp].
  - destruct (issubclass _ _); reflexivity.
  - destruct (_ <? _); [| reflexivity].
    destruct (resp_json resp) as [v | e]; [reflexivity |].
    destruct (issubclass _ _); reflexivity.
Qed.

(** [news_search] either raises out of a coercion, before any request, or
    reaches the [try] block with the coerced values. *)
Lemma news_search_inv (q size location latitude longitude : PyVal) :
  (exists msg,
      news_search environ q size location latitude longitude
      = raise OverflowError msg)
  \/ (exists query size_val location_val latitude_val longitude_val
             location_val',
        parse_val q T_str = Ret query
        /\ parse_val size T_int = Ret size_val
        /\ parse_val location T_str = Ret location_val
        /\ parse_val latitude T_float = Ret latitude_val
        /\ parse_val longitude T_float = Ret longitude_val
        /\ (location_val = VNone \/ exists s, location_val = VStr s)
        /\ process_location location_val = Ret location_val'
        /\ news_search environ q size location latitude longitude
           = api_request environ
               (build_params query size_val location_val'
                  latitude_val longitude_val)).
Proof.
  unfold news_search.
  destruct (parse_val_str q) as (query & -> & _).
  destruct (parse_val_int size) as [(size_val & -> & _) | (s & _ & ->)];
    [| left; eexists; reflexivity].
  destruct (parse_val_str location) as (location_val & -> & Hloc).
  destruct (parse_val_float latitude)
    as [(latitude_val & -> & _) | (n & s & _ & _ & ->)];
    [| left; eexists; reflexivity].
  destruct (parse_val_float longitude)
    as [(longitude_val & -> & _) | (n & s & _ & _ & ->)];
    [| left; eexists; reflexivity].
  right. exists query, size_val, location_val, latitude_val, longitude_val.
  assert (exists v, process_location location_val = Ret v) as [v Hv].
  { destruct Hloc as [-> | [s ->]]; [eexists; reflexivity |].
    destruct (String.eqb_spec s "") as [-> | Hs]; [eexists; reflexivity |].
    rewrite (process_location_str s Hs). eauto. }
  exists v. repeat split; try assumption.
  unfold mbind, prog_bind. cbn [bind]. rewrite Hv. reflexivity.
Qed.

(** A request seen in a run of [news_search] is the one of the [try]
    block, for the coerced values. *)
Lemma news_search_request (remote : request -> http_outcome)
    (q size location latitude longitude : PyVal) (r : request) :
  r ∈ requests_of
        (run remote
           (news_search environ q size location latitude longitude)).1 ->
  exists query size_val location_val latitude_val longitude_val
         location_val',
    parse_val q T_str = Ret query
    /\ parse_val size T_int = Ret size_val
    /\ parse_val location T_str = Ret location_val
    /\ parse_val latitude T_float = Ret latitude_val
    /\ parse_val longitude T_float = Ret longitude_val
    /\ (location_val = VNone \/ exists s, location_val = VStr s)
    /\ process_location location_val = Ret location_val'
    /\ r = the_request environ
             (build_params query size_val location_val'
                latitude_val longitude_val)
    /\ news_search environ q size location latitude longitude
       = api_request environ
           (build_params query size_val location_val'
              latitude_val longitude_val).
Proof.
  destruct (news_search_inv q size location latitude longitude)
    as [[msg ->] | (qv & sv & lv & lav & lov & lv' & Hq & Hs & Hl & Hla & Hlo
                    & Hlv & Hp & ->)].
  - simpl. intros Hr. inversion Hr.
  - rewrite requests_of_api_request. intros ->%list_elem_of_singleton.
    exists qv, sv, lv, lav, lov, lv'. repeat split; auto.
Qed.

End Request.

(** ** Properties of [news_search] *)

Ltac solve_lookup :=
  repeat first [rewrite lookup_insert_eq | rewrite lookup_insert_ne by done];
  rewrite ?lookup_empty; reflexivity.

#[local] Set Warnings "-clear-no-such-hyp".

Section Properties.
Context `{Builtins} (environ : gmap string string).

(** C1. Whenever the remote call is made and fails (no response because of
    a network error, a timeout or a failure to build or send the request,
    an HTTP error status, or a body that is not valid JSON) with an
    ordinary exception, [news_search] logs it and returns
    [{"status": "failed", "reason": str(e)}]; nothing is raised. *)
Theorem news_search_catches_request_failures
    (remote : request -> http_outcome)
    (q size location latitude longitude : PyVal) (r : request) (e : PyExc) :
  r ∈ requests_of
        (run remote
           (news_search environ q size location latitude longitude)).1 ->
  remote_failure (remote r) e ->
  issubclass (exc_class e) Exception = true ->
  run remote (news_search environ q size location latitude longitude)
  = ([Requested r; Logged "" e],
     Returned
       (VDict [("status", VStr "failed"); ("reason", VStr (exc_str e))])).
Proof.
  intros Hr Hfail Hexc.
  destruct (news_search_request environ remote _ _ _ _ _ r Hr)
    as (qv & sv & lv & lav & lov & lv' & _ & _ & _ & _ & _ & _ & _ & Hreq
        & ->).
  rewrite run_api_request. cbv zeta. rewrite <- Hreq.
  inversion Hfail as [e' Ho | resp Hst Ho | resp e' Hst Hjs Ho]; subst.
  - rewrite Hexc. reflexivity.
  - apply Z.ltb_ge in Hst. rewrite Hst. reflexivity.
  - apply Z.ltb_lt in Hst. rewrite Hst, Hjs, Hexc. reflexivity.
Qed.

(** C2. When the remote call succeeds, an array body comes back wrapped as
    [{"result": <array>}] and an object body comes back unchanged. *)
Theorem news_search_wraps_arrays_passes_objects
    (remote : request -> http_outcome)
    (q size location latitude longitude : PyVal) (r : request)
    (resp : response) :
  r ∈ requests_of
        (run remote
           (news_search environ q size location latitude longitude)).1 ->
  remote r = Responded resp ->
  resp_status resp < 400 ->
  (forall l, resp_json resp = inl (VList l) ->
     run remote (news_search environ q size location latitude longitude)
     = ([Requested r], Returned (VDict [("result", VList l)])))
  /\ (forall d, resp_json resp = inl (VDict d) ->
     run remote (news_search environ q size location latitude longitude)
     = ([Requested r], Returned (VDict d))).
Proof.
  intros Hr Ho Hst.
  destruct (news_search_request environ remote _ _ _ _ _ r Hr)
    as (qv & sv & lv & lav & lov & lv' & _ & _ & _ & _ & _ & _ & _ & Hreq
        & ->).
  rewrite run_api_request. cbv zeta. rewrite <- Hreq, Ho.
  apply Z.ltb_lt in Hst. rewrite Hst.
  split; intros x ->; reflexivity.
Qed.

(** C3. The parameters of the request always hold [q] and [size] with the
    coerced values, [None] included; they hold [location] exactly when the
    cleaned location is truthy, [latitude] exactly when the coerced
    latitude is not [None], and likewise [longitude]; they hold no other
    key. *)
Theorem request_params_keys
    (remote : request -> http_outcome)
    (q size location latitude longitude : PyVal) (r : request) :
  r ∈ requests_of
        (run remote
           (news_search environ q size location latitude longitude)).1 ->
  exists query size_val location_val latitude_val longitude_val,
    parse_val q T_str = Ret query
    /\ parse_val size T_int = Ret size_val
    /\ (v ← parse_val location T_str; process_location v) = Ret location_val
    /\ parse_val latitude T_float = Ret latitude_val
    /\ parse_val longitude T_float = Ret longitude_val
    /\ req_params r !! "q" = Some query
    /\ req_params r !! "size" = Some size_val
    /\ req_params r !! "location"
       = (if truthy location_val then Some location_val else None)
    /\ req_params r !! "latitude"
       = (if is_None latitude_val then None else Some latitude_val)
    /\ req_params r !! "longitude"
       = (if is_None longitude_val then None else Some longitude_val)
    /\ dom (req_params r)
       ⊆ {["q"; "size"; "location"; "latitude"; "longitude"]}.
Proof.
  intros Hr.
  destruct (news_search_request environ remote _ _ _ _ _ r Hr)
    as (qv & sv & lv & lav & lov & lv' & Hq & Hs & Hl & Hla & Hlo & _ & Hp
        & -> & _).
  exists qv, sv, lv', lav, lov.
  rewrite Hl. unfold mbind at 1, prog_bind at 1. cbn [bind].
  repeat (split; [assumption |]).
  unfold the_request, build_params. cbn [req_params].
  destruct (truthy lv'), (is_None lav), (is_None lov); cbn [negb];
    repeat split; try solve_lookup;
    rewrite ?dom_insert_L, dom_empty_L; set_solver.
Qed.

(** C7. Every request that [news_search] sends is a GET to the fixed URL,
    with the fixed host header, the key header read from the environment
    variable [RAPID_API_KEY], and a timeout of five seconds; and it sends
    at most one. *)
Theorem request_is_fixed_get
    (remote : request -> http_outcome)
    (q size location latitude longitude : PyVal) (r : request) :
  r ∈ requests_of
        (run remote
           (news_search environ q size location latitude longitude)).1 ->
  req_method r = "GET"
  /\ req_url r = "https://aigeon-news-search1.p.rapidapi.com/api/search"
  /\ req_headers r !! "x-rapidapi-host"
     = Some (VStr "aigeon-news-search1.p.rapidapi.com")
  /\ req_headers r !! "x-rapidapi-key"
     = Some (match environ !! "RAPID_API_KEY" with
             | Some key => VStr key
             | None => VNone
             end)
  /\ req_timeout r = 5
  /\ requests_of
       (run remote
          (news_search environ q size location latitude longitude)).1
     = [r].
Proof.
  intros Hr.
  destruct (news_search_request environ remote _ _ _ _ _ r Hr)
    as (qv & sv & lv & lav & lov & lv' & _ & _ & _ & _ & _ & _ & _ & ->
        & ->).
  rewrite requests_of_api_request.
  unfold the_request, headers, rapid_api_key, getenv. cbn.
  repeat split; solve_lookup.
Qed.

(** C4. A location that coerces to a non-empty string is sent with every
    underscore and then every comma replaced by one space each, so the
    value sent holds neither character; ["Los_Angeles, CA"] is sent as
    ["Los Angeles  CA"]. *)
Theorem location_separators_become_spaces
    (remote : request -> http_outcome)
    (q size location latitude longitude : PyVal) (r : request) (s : string) :
  r ∈ requests_of
        (run remote
           (news_search environ q size location latitude longitude)).1 ->
  parse_val location T_str = Ret (VStr s) ->
  s <> "" ->
  let sent := replace_every "," " " (replace_every "_" " " s) in
  req_params r !! "location" = Some (VStr sent)
  /\ String.length sent = String.length s
  /\ occurs "_" sent = false
  /\ occurs "," sent = false
  /\ (s = "Los_Angeles, CA" -> sent = "Los Angeles  CA").
Proof.
  intros Hr Hloc Hs sent.
  destruct (news_search_request environ remote _ _ _ _ _ r Hr)
    as (qv & sv & lv & lav & lov & lv' & _ & _ & Hl & _ & _ & _ & Hp
        & -> & _).
  rewrite Hloc in Hl. injection Hl as <-.
  rewrite (process_location_str s Hs) in Hp. injection Hp as <-.
  fold sent. split; [| split; [| split; [| split]]].
  - unfold the_request, build_params. cbn [req_params].
    replace (truthy (VStr sent)) with true.
    + destruct (is_None lav), (is_None lov); cbn [negb]; solve_lookup.
    + simpl. unfold sent. rewrite !replace_every_empty.
      destruct (String.eqb_spec s ""); [congruence | reflexivity].
  - unfold sent. rewrite !replace_every_length. reflexivity.
  - unfold sent. apply replace_every_keeps_absent; [discriminate |].
    apply replace_every_occurs. discriminate.
  - unfold sent. apply replace_every_occurs. discriminate.
  - intros ->. reflexivity.
Qed.

(** C5. The coercion of [size] is not total: for an infinite float,
    [int()] raises [OverflowError], which [parse_val] does not catch, and
    [news_search] raises it before any request is sent. *)
Theorem infinite_size_raises_overflow
    (remote : request -> http_outcome)
    (q location latitude longitude : PyVal) (s : bool) :
  parse_val (VFloat (S754_infinity s)) T_int
  = raise OverflowError "cannot convert float infinity to integer"
  /\ run remote
       (news_search environ q (VFloat (S754_infinity s))
          location latitude longitude)
     = ([], Raised
              (mkExc OverflowError "cannot convert float infinity to integer")).
Proof.
  split; [reflexivity |].
  unfold news_search. destruct (parse_val_str q) as (query & -> & _).
  reflexivity.
Qed.

(** C6, with the boundary the client draws. A response whose status is
    400 or above is a failure: [news_search] logs the
    [ClientResponseError] and returns [{"status": "failed", "reason": ...}],
    and nothing is raised.  A response whose status is below 400, every
    3xx status included, is no failure on account of its status: when its
    body decodes, the body is returned, wrapped when it is a list. *)
Theorem http_status_400_decides_failure
    (remote : request -> http_outcome)
    (q size location latitude longitude : PyVal) (r : request)
    (resp : response) :
  r ∈ requests_of
        (run remote
           (news_search environ q size location latitude longitude)).1 ->
  remote r = Responded resp ->
  (400 <= resp_status resp ->
   run remote (news_search environ q size location latitude longitude)
   = ([Requested r;
       Logged "" (mkExc ClientResponseError (resp_error_str resp))],
      Returned
        (VDict [("status", VStr "failed");
                ("reason", VStr (resp_error_str resp))])))
  /\ (resp_status resp < 400 ->
      forall body,
        resp_json resp = inl body ->
        run remote (news_search environ q size location latitude longitude)
        = ([Requested r],
           Returned
             (if is_list body then VDict [("result", body)] else body))).
Proof.
  intros Hr Ho.
  destruct (news_search_request environ remote _ _ _ _ _ r Hr)
    as (qv & sv & lv & lav & lov & lv' & _ & _ & _ & _ & _ & _ & _ & Hreq
        & ->).
  rewrite run_api_request. cbv zeta. rewrite <- Hreq, Ho.
  split.
  - intros Hst%Z.ltb_ge. rewrite Hst. reflexivity.
  - intros Hst%Z.ltb_lt body Hjs. rewrite Hst, Hjs. reflexivity.
Qed.

(** C8. A call is a function of its arguments and of what the remote
    answers to the one request: either a coercion raises, whatever the
    remote, or the call sends a request fixed by the arguments and the
    environment, and the log records and the result are those that
    [outcome_result] reads off the outcome of that request.  So two calls
    with the same arguments against remotes that answer the request alike
    give the same events and the same result. *)
Theorem news_search_result_determined_by_outcome
    (q size location latitude longitude : PyVal) :
  ((exists e,
      forall remote,
        run remote (news_search environ q size location latitude longitude)
        = ([], Raised e))
   \/ (exists r,
        forall remote,
          run remote (news_search environ q size location latitude longitude)
          = (Requested r :: (outcome_result (remote r)).1,
             (outcome_result (remote r)).2)))
  /\ (forall remote1 remote2,
        (forall r,
            r ∈ requests_of
                  (run remote1
                     (news_search environ q size location latitude
                        longitude)).1 ->
            remote1 r = remote2 r) ->
        run remote1 (news_search environ q size location latitude longitude)
        = run remote2
            (news_search environ q size location latitude longitude)).
Proof.
  assert (Hfun : forall remote params,
    run remote (api_request environ params)
    = (Requested (the_request environ params)
         :: (outcome_result (remote (the_request environ params))).1,
       (outcome_result (remote (the_request environ params))).2)).
  { intros remote params. rewrite run_api_request. cbv zeta.
    unfold outcome_result, error_result.
    destruct (remote _) as [e | resp].
    - destruct (issubclass _ _); reflexivity.
    - rewrite (Z.leb_antisym (resp_status resp) 400).
      destruct (resp_status resp <? 400); simpl; [| reflexivity].
      destruct (resp_json resp) as [body | e]; [reflexivity |].
      destruct (issubclass _ _); reflexivity. }
  destruct (news_search_inv environ q size location latitude longitude)
    as [[msg Heq] | (qv & sv & lv & lav & lov & lv' & _ & _ & _ & _ & _ & _
                     & _ & Heq)];
    rewrite Heq.
  - split; [left; eexists; intros remote; reflexivity | reflexivity].
  - split; [right; eexists; intros remote; apply Hfun |].
    intros remote1 remote2 Hsame.
    rewrite requests_of_api_request in Hsame.
    rewrite !Hfun, <- (Hsame _ (list_elem_of_here _ _)). reflexivity.
Qed.

(** C9. When the remote call succeeds with a body that is not an array,
    the body is returned as it is; a body that is not an object either (a
    string, a number, a boolean, null) makes the result a value that is
    not an object. *)
Theorem non_array_body_is_returned_unchanged
    (remote : request -> http_outcome)
    (q size location latitude longitude : PyVal) (r : request)
    (resp : response) (body : PyVal) :
  r ∈ requests_of
        (run remote
           (news_search environ q size location latitude longitude)).1 ->
  remote r = Responded resp ->
  resp_status resp < 400 ->
  resp_json resp = inl body ->
  is_list body = false ->
  run remote (news_search environ q size location latitude longitude)
  = ([Requested r], Returned body)
  /\ (is_dict body = false ->
      forall d,
        (run remote
           (news_search environ q size location latitude longitude)).2
        <> Returned (VDict d)).
Proof.
  intros Hr Ho Hst Hjs Hlist.
  assert (Hrun :
    run remote (news_search environ q size location latitude longitude)
    = ([Requested r], Returned body)).
  { destruct (news_search_request environ remote _ _ _ _ _ r Hr)
      as (qv & sv & lv & lav & lov & lv' & _ & _ & _ & _ & _ & _ & _ & Hreq
          & ->).
    rewrite run_api_request. cbv zeta. rewrite <- Hreq, Ho.
    apply Z.ltb_lt in Hst. rewrite Hst, Hjs, Hlist. reflexivity. }
  split; [exact Hrun |].
  intros Hdict d. rewrite Hrun. simpl. intros [= ->]. discriminate Hdict.
Qed.

(** C10. With target [int], a finite float is cut to its integer part,
    toward zero (10.9 gives 10), while a string that holds a decimal point
    is no integer literal and gives [None] (["10.5"] gives [None], though
    the float 10.5 gives 10). *)
Theorem size_coercion_float_truncates_string_fails :
  (forall s m e,
      exists n,
        parse_val (VFloat (S754_finite s m e)) T_int = Ret (VInt n)
        /\ integer_part s m e n)
  /\ parse_val (VFloat float_10_9) T_int = Ret (VInt 10)
  /\ (forall str,
        occurs "." str = true ->
        (exists msg, py_int (VStr str) = raise ValueError msg)
        /\ parse_val (VStr str) T_int = Ret VNone)
  /\ parse_val (VStr "10.5") T_int = Ret VNone
  /\ parse_val (VFloat float_10_5) T_int = Ret (VInt 10).
Proof.
  split; [| split; [| split; [| split]]].
  - intros s m e. exists (float_trunc s m e).
    split; [reflexivity | apply float_trunc_integer_part].
  - reflexivity.
  - intros str Hdot%int_of_str_dot. split.
    + simpl. rewrite Hdot. eexists. reflexivity.
    + apply parse_val_int_invalid_literal. exact Hdot.
  - reflexivity.
  - reflexivity.
Qed.

End Properties.

(** ** The properties at sample calls *)

Lemma sample_request_sent (remote : request -> http_outcome) :
  sample_request ∈ requests_of (run remote sample_call).1.
Proof.
  unfold sample_call, news_search_default.
  change (sample_request
          ∈ requests_of
              (run remote
                 (api_request ∅
                    (build_params (VStr "election") (VInt 10)
                       VNone VNone VNone))).1).
  rewrite requests_of_api_request. apply list_elem_of_here.
Qed.

Lemma sample_located_request_sent (remote : request -> http_outcome) :
  sample_located_request ∈ requests_of (run remote sample_located_call).1.
Proof.
  unfold sample_located_call.
  change (sample_located_request
          ∈ requests_of
              (run remote
                 (api_request ∅
                    (build_params (VStr "election") (VInt 10)
                       (VStr "Los Angeles  CA") VNone VNone))).1).
  rewrite requests_of_api_request. apply list_elem_of_here.
Qed.

Lemma news_search_catches_request_failures_witness :
  run remote_timeout sample_call
  = ([Requested sample_request; Logged "" (mkExc TimeoutError "")],
     Returned (VDict [("status", VStr "failed"); ("reason", VStr "")])).
Proof.
  apply (@news_search_catches_request_failures plain_builtins ∅
           remote_timeout (VStr "election") (VInt 10) VNone VNone VNone
           sample_request (mkExc TimeoutError "")).
  - apply sample_request_sent.
  - apply failure_no_response.
  - reflexivity.
Defined.

Lemma news_search_wraps_arrays_passes_objects_witness :
  run remote_articles sample_call
  = ([Requested sample_request],
     Returned
       (VDict
          [("result",
            VList [VDict [("title", VStr "A")]; VDict [("title", VStr "B")]])])).
Proof.
  refine (proj1
    (@news_search_wraps_arrays_passes_objects plain_builtins ∅
       remote_articles (VStr "election") (VInt 10) VNone VNone VNone
       sample_request _ _ _ _) _ _).
  - apply sample_request_sent.
  - reflexivity.
  - simpl. lia.
  - reflexivity.
Defined.

Lemma request_params_keys_witness :
  req_params sample_located_request !! "q" = Some (VStr "election")
  /\ req_params sample_located_request !! "size" = Some (VInt 10)
  /\ req_params sample_located_request !! "location"
     = Some (VStr "Los Angeles  CA")
  /\ req_params sample_located_request !! "latitude" = None.
Proof.
  destruct (@request_params_keys plain_builtins ∅ remote_timeout
              (VStr "election") (VInt 10) (VStr "Los_Angeles, CA")
              VNone VNone sample_located_request
              (sample_located_request_sent remote_timeout))
    as (qv & sv & lv & lav & lov & Hq & Hs & Hl & Hla & Hlo & Pq & Ps & Pl
        & Pla & _).
  injection Hq as <-. injection Hs as <-. injection Hl as <-.
  injection Hla as <-.
  repeat split; assumption.
Defined.

Lemma location_separators_become_spaces_witness :
  req_params sample_located_request !! "location"
  = Some (VStr "Los Angeles  CA").
Proof.
  refine (proj1
    (@location_separators_become_spaces plain_builtins ∅ remote_timeout
       (VStr "election") (VInt 10) (VStr "Los_Angeles, CA") VNone VNone
       sample_located_request "Los_Angeles, CA" _ _ _)).
  - apply sample_located_request_sent.
  - reflexivity.
  - discriminate.
Defined.

Lemma keyed_request_sent (remote : request -> http_outcome) :
  keyed_request ∈ requests_of (run remote keyed_call).1.
Proof.
  unfold keyed_call, news_search_default.
  change (keyed_request
          ∈ requests_of
              (run remote
                 (api_request keyed_environ
                    (build_params (VStr "election") (VInt 10)
                       VNone VNone VNone))).1).
  rewrite requests_of_api_request. apply list_elem_of_here.
Qed.

Lemma http_status_400_decides_failure_witness :
  req_headers keyed_request !! "x-rapidapi-key"
  = Some (VStr "0123456789abcdef")
  /\ run remote_unauthorized keyed_call
     = ([Requested keyed_request;
         Logged "" (mkExc ClientResponseError "401, message='Unauthorized'")],
        Returned
          (VDict [("status", VStr "failed");
                  ("reason", VStr "401, message='Unauthorized'")]))
  /\ run remote_object keyed_call
     = ([Requested keyed_request], Returned (VDict [("total", VInt 0)])).
Proof.
  split; [reflexivity |]. split.
  - refine (proj1
      (@http_status_400_decides_failure plain_builtins keyed_environ
         remote_unauthorized (VStr "election") (VInt 10) VNone VNone VNone
         keyed_request response_unauthorized _ _) _).
    + apply keyed_request_sent.
    + reflexivity.
    + simpl. lia.
  - refine (proj2
      (@http_status_400_decides_failure plain_builtins keyed_environ
         remote_object (VStr "election") (VInt 10) VNone VNone VNone
         keyed_request
         (mkResponse 200 "" (inl (VDict [("total", VInt 0)]))) _ _)
      _ (VDict [("total", VInt 0)]) _).
    + apply keyed_request_sent.
    + reflexivity.
    + simpl. lia.
    + reflexivity.
Defined.

Lemma request_is_fixed_get_witness :
  req_method sample_request = "GET"
  /\ req_timeout sample_request = 5
  /\ req_headers sample_request !! "x-rapidapi-key" = Some VNone.
Proof.
  destruct (@request_is_fixed_get plain_builtins ∅ remote_timeout
              (VStr "election") (VInt 10) VNone VNone VNone sample_request
              (sample_request_sent remote_timeout))
    as (Hm & _ & _ & Hk & Ht & _).
  repeat split; assumption.
Defined.

Lemma news_search_result_determined_by_outcome_witness :
  run remote_articles keyed_call
  = run (fun r => if req_timeout r =? 5 then remote_articles r
                  else remote_timeout r) keyed_call.
Proof.
  apply (proj2
    (@news_search_result_determined_by_outcome plain_builtins keyed_environ
       (VStr "election") (VInt 10) VNone VNone VNone)).
  intros r Hr.
  destruct (@news_search_request plain_builtins keyed_environ remote_articles
              (VStr "election") (VInt 10) VNone VNone VNone r Hr)
    as (qv & sv & lv & lav & lov & lv' & _ & _ & _ & _ & _ & _ & _ & ->
        & _).
  reflexivity.
Defined.

Lemma non_array_body_is_returned_unchanged_witness :
  run remote_scalar sample_call = ([Requested sample_request], Returned (VStr "ok"))
  /\ forall d, (run remote_scalar sample_call).2 <> Returned (VDict d).
Proof.
  destruct (@non_array_body_is_returned_unchanged plain_builtins ∅
              remote_scalar (VStr "election") (VInt 10) VNone VNone VNone
              sample_request (mkResponse 200 "" (inl (VStr "ok"))) (VStr "ok")
              (sample_request_sent remote_scalar) eq_refl)
    as [Hrun Hnot]; [simpl; lia | reflexivity | reflexivity |].
  split; [exact Hrun | exact (Hnot eq_refl)].
Defined.

Lemma size_coercion_float_truncates_string_fails_witness :
  occurs "." "10.5" = true
  /\ @parse_val plain_builtins (VStr "10.5") T_int = Ret VNone.
Proof.
  split; [reflexivity |].
  apply (proj1 (proj2 (proj2
    (@size_coercion_float_truncates_string_fails plain_builtins)))).
  reflexivity.
Defined.

(** C6 does not extend to every status outside 2xx.  With the key set in
    the environment, so that the key header holds a string, a response
    with status 300, outside that range, has its body returned and not the
    failure object, and nothing is logged. *)
Lemma status_300_body_is_returned :
  req_headers keyed_request !! "x-rapidapi-key"
  = Some (VStr "0123456789abcdef")
  /\ remote_multiple_choices keyed_request
     = Responded response_multiple_choices
  /\ resp_status response_multiple_choices = 300
  /\ ~ (200 <= resp_status response_multiple_choices < 300)
  /\ run remote_multiple_choices keyed_call
     = ([Requested keyed_request], Returned (VDict [("choices", VList [])]))
  /\ forall e, VDict [("choices", VList [])] <> failed e.
Proof.
  split; [reflexivity |]. split; [reflexivity |]. split; [reflexivity |].
  split; [simpl; lia |]. split; [| discriminate].
  unfold keyed_call, news_search_default.
  change (run remote_multiple_choices
            (api_request keyed_environ
               (build_params (VStr "election") (VInt 10) VNone VNone VNone))
          = ([Requested keyed_request],
             Returned (VDict [("choices", VList [])]))).
  rewrite run_api_request. reflexivity.
Qed.

(** ** Further samples of the coercion *)

(** A size that is no number coerces to [None], and the request is sent
    with [size] set to [None]. *)
Lemma non_numeric_size_proceeds (remote : request -> http_outcome) :
  @parse_val plain_builtins (VStr "abc") T_int = Ret VNone
  /\ requests_of
       (run remote
          (@news_search plain_builtins ∅ (VStr "election") (VStr "abc")
             VNone VNone VNone)).1
     = [the_request ∅
          (build_params (VStr "election") VNone VNone VNone VNone)].
Proof.
  split; [reflexivity |].
  change (requests_of
            (run remote
               (api_request ∅
                  (build_params (VStr "election") VNone VNone VNone VNone))).1
          = [the_request ∅
               (build_params (VStr "election") VNone VNone VNone VNone)]).
  apply requests_of_api_request.
Qed.

(** An integer latitude too large for a float raises as well. *)
Lemma huge_latitude_raises_overflow (remote : request -> http_outcome) :
  run remote
    (@news_search plain_builtins ∅ (VStr "election") (VInt 10) VNone
       (VInt (2 ^ 1024)) VNone)
  = ([], Raised (mkExc OverflowError "int too large to convert to float")).
Proof. vm_compute. reflexivity. Qed.

(** ** Decimal text of integers *)

Lemma scan_all_digits (t : string) :
  all_digits t = true ->
  forall acc count need_digit,
    t <> "" \/ need_digit = false ->
    scan_digits t acc count need_digit
    = Some (digits_value acc t, (count + String.length t)%nat, "").
Proof.
  induction t as [| c t IH]; simpl; intros Hd acc count nd Hne.
  - destruct Hne as [Hne | ->]; [congruence |].
    rewrite Nat.add_0_r. reflexivity.
  - destruct (digit_of c) as [d |]; [| discriminate].
    rewrite (IH Hd) by (right; reflexivity).
    rewrite Nat.add_succ_r. reflexivity.
Qed.

Lemma digits_value_acc (t : string) (acc : Z) :
  all_digits t = true ->
  digits_value acc t
  = acc * 10 ^ Z.of_nat (String.length t) + digits_value 0 t.
Proof.
  revert acc. induction t as [| c t IH]; simpl String.length; intros acc Hd.
  - simpl. lia.
  - simpl in *. destruct (digit_of c) as [d |]; [| discriminate].
    rewrite (IH (10 * acc + d) Hd), (IH (10 * 0 + d) Hd).
    rewrite Nat2Z.inj_succ, Z.pow_succ_r by lia. ring.
Qed.

Lemma digit_of_pretty_N_char (d : N) :
  (d < 10)%N -> digit_of (pretty_N_char d) = Some (Z.of_N d).
Proof.
  intros Hd.
  destruct d as [| p]; [reflexivity |].
  do 4 (destruct p as [p | p |]; try reflexivity; try lia).
Qed.

Lemma pretty_N_go_digits (k : nat) :
  forall (x : N) (s : string),
    (x < 10 ^ N.of_nat k)%N ->
    all_digits s = true ->
    all_digits (pretty_N_go x s) = true
    /\ digits_value 0 (pretty_N_go x s)
       = Z.of_N x * 10 ^ Z.of_nat (String.length s) + digits_value 0 s
    /\ (String.length (pretty_N_go x s) <= k + String.length s)%nat
    /\ ((0 < x)%N -> (String.length s < String.length (pretty_N_go x s))%nat).
Proof.
  induction k as [| k IH]; intros x s Hx Hs.
  - assert (x = 0%N) as -> by (simpl in Hx; lia).
    rewrite pretty_N_go_0. split; [| split; [| split]]; [exact Hs | lia | lia | lia].
  - destruct (decide (x = 0%N)) as [-> | Hpos].
    { rewrite pretty_N_go_0. split; [| split; [| split]]; [exact Hs | lia | lia | lia]. }
    rewrite pretty_N_go_step by lia.
    assert (Hmod : (x `mod` 10 < 10)%N) by (apply N.mod_lt; lia).
    assert (Hdiv : (x `div` 10 < 10 ^ N.of_nat k)%N).
    { apply N.Div0.div_lt_upper_bound.
      rewrite Nat2N.inj_succ, N.pow_succ_r' in Hx. lia. }
    assert (Hs' : all_digits (String (pretty_N_char (x `mod` 10)) s) = true).
    { simpl. rewrite (digit_of_pretty_N_char _ Hmod). exact Hs. }
    destruct (IH _ _ Hdiv Hs') as (Ha & Hv & Hl & Hlt).
    split; [| split; [| split]].
    + exact Ha.
    + rewrite Hv. simpl String.length. simpl digits_value.
      rewrite (digit_of_pretty_N_char _ Hmod).
      rewrite (digits_value_acc s _ Hs).
      rewrite Nat2Z.inj_succ, Z.pow_succ_r by lia.
      rewrite (N.div_mod x 10) at 3 by lia.
      rewrite N2Z.inj_add, N2Z.inj_mul. simpl (Z.of_N 10). ring.
    + simpl String.length in Hl. lia.
    + intros _. simpl String.length in *.
      destruct (decide (x `div` 10 = 0)%N) as [Hz | Hnz].
      * rewrite Hz, pretty_N_go_0. apply Nat.lt_succ_diag_r.
      * assert (Hd : (0 < x `div` 10)%N) by (apply N.neq_0_lt_0; exact Hnz).
        apply Nat.lt_trans with (2 := Hlt Hd), Nat.lt_succ_diag_r.
Qed.

Lemma digit_not_space (c : ascii) (d : Z) :
  digit_of c = Some d -> is_space c = false.
Proof.
  unfold digit_of, is_space. cbv zeta.
  destruct (Z.leb_spec 48 (code c)), (Z.leb_spec (code c) 57);
    simpl; try discriminate.
  intros _.
  repeat match goal with
         | |- context [(?a <=? ?b)] => destruct (Z.leb_spec a b)
         | |- context [(?a =? ?b)] => destruct (Z.eqb_spec a b)
         end; simpl; try reflexivity; lia.
Qed.

Lemma digit_not_sign (c : ascii) (d : Z) :
  digit_of c = Some d -> Ascii.eqb c "-" = false /\ Ascii.eqb c "+" = false.
Proof.
  intros Hd.
  split; apply Ascii.eqb_neq; intros ->; discriminate Hd.
Qed.

(** The decimal text of a positive number: digits only, at least one,
    reading back as the number. *)
Lemma pretty_positive_digits (p : positive) :
  let t := pretty (N.pos p) in
  all_digits t = true /\ digits_value 0 t = Z.pos p /\ t <> "".
Proof.
  cbv zeta. unfold pretty, pretty_N.
  destruct (decide (N.pos p = 0%N)) as [Hz | _]; [discriminate Hz |].
  assert (Hk : (N.pos p < 10 ^ N.of_nat (Pos.to_nat p))%N).
  { rewrite positive_nat_N. apply N.pow_gt_lin_r. lia. }
  destruct (pretty_N_go_digits _ (N.pos p) "" Hk eq_refl)
    as (Ha & Hv & _ & Hlen).
  split; [exact Ha |]. split.
  - rewrite Hv. simpl. lia.
  - intros Hempty. rewrite Hempty in Hlen.
    specialize (Hlen eq_refl). simpl in Hlen. inversion Hlen.
Qed.

Lemma int_of_str_digits (t : string) (neg : bool) :
  all_digits t = true -> t <> "" ->
  int_of_str ((if neg then "-" else "") +:+ t)
  = Some (String.length t,
          if neg then - digits_value 0 t else digits_value 0 t).
Proof.
  intros Hd Hne. unfold int_of_str.
  destruct t as [| c t]; [congruence |].
  pose proof Hd as Hc. simpl in Hc.
  destruct (digit_of c) as [d |] eqn:Hdc; [| discriminate].
  pose proof (digit_not_space c d Hdc) as Hsp.
  destruct (digit_not_sign c d Hdc) as [Hm Hp].
  destruct neg.
  - change ("-" +:+ String c t) with (String "-" (String c t)).
    change (lstrip (String "-" (String c t))) with (String "-" (String c t)).
    cbv iota beta. rewrite Ascii.eqb_refl. cbv iota beta.
    rewrite (scan_all_digits _ Hd) by (left; discriminate).
    reflexivity.
  - change ("" +:+ String c t) with (String c t).
    cbn [lstrip]. rewrite Hsp, Hm, Hp.
    rewrite (scan_all_digits _ Hd) by (left; discriminate).
    reflexivity.
Qed.

Lemma int_of_str_pretty (n : Z) :
  int_of_str (pretty n) = Some (String.length (pretty (Z.abs n)), n).
Proof.
  destruct n as [| p | p].
  - reflexivity.
  - destruct (pretty_positive_digits p) as (Ha & Hv & Hne).
    change (pretty (Z.pos p)) with ("" +:+ pretty (N.pos p)).
    rewrite (int_of_str_digits _ false Ha Hne), Hv. reflexivity.
  - destruct (pretty_positive_digits p) as (Ha & Hv & Hne).
    change (pretty (Z.neg p)) with ("-" +:+ pretty (N.pos p)).
    rewrite (int_of_str_digits _ true Ha Hne), Hv. reflexivity.
Qed.

(** A number below [10^k] has at most [k] decimal digits. *)
Lemma pretty_length_bound (n : Z) (k : nat) :
  Z.abs n < 10 ^ Z.of_nat k -> (0 < k)%nat ->
  (String.length (pretty (Z.abs n)) <= k)%nat.
Proof.
  intros Hn Hk.
  destruct (Z.abs n) as [| p | p] eqn:Habs; [simpl; lia | | lia].
  change (pretty (Z.pos p)) with (pretty (N.pos p)).
  unfold pretty, pretty_N.
  destruct (decide (N.pos p = 0%N)) as [Hz | _]; [discriminate Hz |].
  assert (Hb : (N.pos p < 10 ^ N.of_nat k)%N).
  { apply N2Z.inj_lt. rewrite N2Z.inj_pow, nat_N_Z. exact Hn. }
  destruct (pretty_N_go_digits k (N.pos p) "" Hb eq_refl)
    as (_ & _ & Hl & _).
  simpl in Hl. lia.
Qed.

(** ** Shapes of a call *)

Section Shapes.
Context `{Builtins} (environ : gmap string string).

Lemma api_request_shape (remote : request -> http_outcome)
    (params : gmap string PyVal) :
  call_shape remote (run remote (api_request environ params)).
Proof.
  rewrite run_api_request. cbv zeta.
  destruct (remote (the_request environ params)) as [e | resp] eqn:Ho.
  - destruct (issubclass (exc_class e) Exception) eqn:He.
    + apply shape_failed; [rewrite Ho; constructor | exact He].
    + apply shape_propagated; [rewrite Ho; constructor | exact He].
  - destruct (Z.ltb_spec (resp_status resp) 400) as [Hst | Hst].
    + destruct (resp_json resp) as [body | e] eqn:Hjs.
      * exact (shape_succeeded remote _ resp body Ho Hst Hjs).
      * destruct (issubclass (exc_class e) Exception) eqn:He.
        -- apply shape_failed; [rewrite Ho; constructor; assumption | exact He].
        -- apply shape_propagated;
             [rewrite Ho; constructor; assumption | exact He].
    + apply (shape_failed remote _
               (mkExc ClientResponseError (resp_error_str resp)));
        [rewrite Ho; constructor; exact Hst | reflexivity].
Qed.

Lemma news_search_shape (remote : request -> http_outcome)
    (q size location latitude longitude : PyVal) :
  call_shape remote
    (run remote (news_search environ q size location latitude longitude)).
Proof.
  destruct (news_search_inv environ q size location latitude longitude)
    as [[msg ->] | (qv & sv & lv & lav & lov & lv' & _ & _ & _ & _ & _ & _
                    & _ & ->)].
  - apply shape_coercion_raised.
  - apply api_request_shape.
Qed.

End Shapes.

(** ** Further properties of [parse_val] *)

Section CoercionProperties.
Context `{Builtins}.

(** X1. Coercing twice is the same as coercing once: whatever
    [parse_val] returns, [parse_val] with the same target returns it
    unchanged. *)
Theorem parse_val_idempotent (v x : PyVal) (t : target_type) :
  parse_val v t = Ret x -> parse_val x t = Ret x.
Proof.
  destruct t.
  - destruct (parse_val_str v) as (y & -> & [-> | [s ->]]);
      intros [= <-]; reflexivity.
  - destruct (parse_val_int v) as [(y & -> & [-> | [n ->]]) | (s & _ & ->)];
      [intros [= <-]; reflexivity .. | discriminate].
  - destruct (parse_val_float v)
      as [(y & -> & [-> | [f ->]]) | (n & s & _ & _ & ->)];
      [intros [= <-]; reflexivity .. | discriminate].
  - rewrite !parse_val_other. trivial.
Qed.

(** X2. For a value that is no list or dict when the target is [str],
    [parse_val] returns [None] or a value of the target type (the input
    itself for a target other than [str], [int], [float]); it raises
    exactly on the overflowing conversions, and then [OverflowError]; it
    sends no request and logs nothing. *)
Theorem parse_val_outcome (v : PyVal) (t : target_type) :
  (t = T_str -> is_container v = false) ->
  match parse_val v t with
  | Ret x =>
      overflows v t = false
      /\ (x = VNone \/ has_target_type t x = true)
      /\ (t = T_other -> x = v)
  | Throw e => overflows v t = true /\ exc_class e = OverflowError
  | HttpGet _ _ | LogWarning _ _ _ => False
  end.
Proof.
  intros _.
  destruct t.
  - destruct (parse_val_str v) as (y & Hy & [-> | [s ->]]); rewrite Hy;
      (split; [destruct v; reflexivity |]); split; auto; discriminate.
  - destruct v as [| b | n | f | s | l | d]; simpl;
      try (split; [reflexivity |]; split; [auto | discriminate]).
    + destruct f; simpl;
        try (split; [reflexivity |]; split; [auto | discriminate]).
      split; reflexivity.
    + destruct (int_of_str s) as [[c n] |]; simpl;
        [destruct (_ <? _)%nat; simpl |];
        (split; [reflexivity |]; split; [auto | discriminate]).
  - destruct v as [| b | n | f | s | l | d]; simpl;
      try (split; [reflexivity |]; split; [auto | discriminate]).
    + destruct (float_of_Z n); simpl;
        try (split; [reflexivity |]; split; [auto | discriminate]).
      split; reflexivity.
    + destruct (float_of_str s); simpl;
        (split; [reflexivity |]; split; [auto | discriminate]).
  - rewrite parse_val_other. split; [destruct v; reflexivity |].
    split; [right; reflexivity | reflexivity].
Qed.

(** X3. An integer of at most 4300 digits survives the trip through its
    text: coerced to [str] it gives its decimal text, and that text
    coerced to [int] gives the integer back. *)
Theorem int_str_round_trip (n : Z) :
  Z.abs n < 10 ^ 4300 ->
  parse_val (VInt n) T_str = Ret (VStr (pretty n))
  /\ parse_val (VStr (pretty n)) T_int = Ret (VInt n).
Proof.
  intros Hn.
  assert (Hlen : (String.length (pretty (Z.abs n)) <= max_str_digits)%nat).
  { apply pretty_length_bound; [| unfold max_str_digits; lia].
    replace (Z.of_nat max_str_digits) with 4300 by (vm_compute; reflexivity).
    exact Hn. }
  apply Nat.ltb_ge in Hlen.
  split.
  - cbn [parse_val py_str]. rewrite Hlen. reflexivity.
  - cbn [parse_val py_int]. rewrite int_of_str_pretty, Hlen. reflexivity.
Qed.

End CoercionProperties.

(** ** Further properties of [news_search] *)

Section FurtherProperties.
Context `{Builtins} (environ : gmap string string).

(** X4. An error of the request path that is no [Exception] (a
    cancellation, a keyboard interrupt) is not caught: it leaves
    [news_search] as it is, and nothing is logged. *)
Theorem non_exception_errors_propagate
    (remote : request -> http_outcome)
    (q size location latitude longitude : PyVal) (r : request) (e : PyExc) :
  r ∈ requests_of
        (run remote
           (news_search environ q size location latitude longitude)).1 ->
  remote_failure (remote r) e ->
  issubclass (exc_class e) Exception = false ->
  run remote (news_search environ q size location latitude longitude)
  = ([Requested r], Raised e).
Proof.
  intros Hr Hfail Hexc.
  destruct (news_search_request environ remote _ _ _ _ _ r Hr)
    as (qv & sv & lv & lav & lov & lv' & _ & _ & _ & _ & _ & _ & _ & Hreq
        & ->).
  rewrite run_api_request. cbv zeta. rewrite <- Hreq.
  inversion Hfail as [e' Ho | resp Hst Ho | resp e' Hst Hjs Ho]; subst.
  - rewrite Hexc. reflexivity.
  - discriminate Hexc.
  - apply Z.ltb_lt in Hst. rewrite Hst, Hjs, Hexc. reflexivity.
Qed.

(** X5. A warning is logged only for a caught failure of the request: the
    record has the empty message, it is the last event after the one
    request, its exception is a failure of that request, and the call
    returns the failure object with the text of that exception. *)
Theorem log_record_means_failure
    (remote : request -> http_outcome)
    (q size location latitude longitude : PyVal) (msg : string) (e : PyExc) :
  Logged msg e
    ∈ (run remote
         (news_search environ q size location latitude longitude)).1 ->
  msg = ""
  /\ exists r,
       remote_failure (remote r) e
       /\ issubclass (exc_class e) Exception = true
       /\ run remote (news_search environ q size location latitude longitude)
          = ([Requested r; Logged "" e],
             Returned
               (VDict [("status", VStr "failed");
                       ("reason", VStr (exc_str e))])).
Proof.
  intros Hlog.
  destruct (news_search_shape environ remote q size location latitude
              longitude) as [m | r resp body Ho Hst Hjs | r e' Hf He
                             | r e' Hf He]; simpl in Hlog.
  - inversion Hlog.
  - apply list_elem_of_singleton in Hlog. discriminate Hlog.
  - apply elem_of_cons in Hlog as [Hlog | Hlog]; [discriminate Hlog |].
    apply list_elem_of_singleton in Hlog. injection Hlog as -> ->.
    split; [reflexivity |]. exists r. auto.
  - apply list_elem_of_singleton in Hlog. discriminate Hlog.
Qed.

(** X6. With a query and a location that are no list or dict, when
    [news_search] raises, either a coercion raised [OverflowError] before
    any request or log record, or the one request failed with an error
    that is no [Exception]. *)
Theorem raised_only_by_overflow_or_non_exception
    (remote : request -> http_outcome)
    (q size location latitude longitude : PyVal) (e : PyExc) :
  is_container q = false ->
  is_container location = false ->
  (run remote
     (news_search environ q size location latitude longitude)).2
  = Raised e ->
  (exc_class e = OverflowError
   /\ (run remote
         (news_search environ q size location latitude longitude)).1 = [])
  \/ (issubclass (exc_class e) Exception = false
      /\ exists r,
           remote_failure (remote r) e
           /\ (run remote
                 (news_search environ q size location latitude longitude)).1
              = [Requested r]).
Proof.
  intros _ _ Hraised.
  destruct (news_search_shape environ remote q size location latitude
              longitude) as [m | r resp body Ho Hst Hjs | r e' Hf He
                             | r e' Hf He]; simpl in *.
  - injection Hraised as <-. left. split; reflexivity.
  - discriminate Hraised.
  - discriminate Hraised.
  - injection Hraised as <-. right. split; [exact He |]. exists r. auto.
Qed.

End FurtherProperties.

(** ** Further properties of the request parameters *)

Lemma replace_every_absent (a b : ascii) (s : string) :
  occurs a s = false -> replace_every a b s = s.
Proof.
  induction s as [| c s IH]; simpl; [reflexivity |].
  intros [Hc Hs]%orb_false_iff. rewrite Hc, (IH Hs). reflexivity.
Qed.

Lemma build_params_lookup
    (query size_val location_val latitude_val longitude_val : PyVal) :
  let params :=
    build_params query size_val location_val latitude_val longitude_val in
  params !! "q" = Some query
  /\ params !! "size" = Some size_val
  /\ params !! "location"
     = (if truthy location_val then Some location_val else None)
  /\ params !! "latitude"
     = (if is_None latitude_val then None else Some latitude_val)
  /\ params !! "longitude"
     = (if is_None longitude_val then None else Some longitude_val).
Proof.
  unfold build_params.
  destruct (truthy location_val), (is_None latitude_val),
    (is_None longitude_val); cbn [negb]; repeat split; solve_lookup.
Qed.

Section ParameterProperties.
Context `{Builtins} (environ : gmap string string).

(** X7. Every parameter sent has the type of its coercion: [q] is a
    string or [None], [size] an integer or [None], [location] a non-empty
    string without underscore or comma, and [latitude] and [longitude]
    floats; the three optional ones are never [None]. *)
Theorem request_params_types
    (remote : request -> http_outcome)
    (q size location latitude longitude : PyVal) (r : request) :
  r ∈ requests_of
        (run remote
           (news_search environ q size location latitude longitude)).1 ->
  (forall v, req_params r !! "q" = Some v ->
             v = VNone \/ exists s, v = VStr s)
  /\ (forall v, req_params r !! "size" = Some v ->
                v = VNone \/ exists n, v = VInt n)
  /\ (forall v, req_params r !! "location" = Some v ->
                exists s, v = VStr s /\ s <> ""
                          /\ occurs "_" s = false /\ occurs "," s = false)
  /\ (forall v, req_params r !! "latitude" = Some v -> exists f, v = VFloat f)
  /\ (forall v, req_params r !! "longitude" = Some v ->
                exists f, v = VFloat f).
Proof.
  intros Hr.
  destruct (news_search_request environ remote _ _ _ _ _ r Hr)
    as (qv & sv & lv & lav & lov & lv' & Hq & Hs & Hl & Hla & Hlo & Hlv & Hp
        & -> & _).
  destruct (build_params_lookup qv sv lv' lav lov)
    as (Pq & Ps & Pl & Pla & Plo).
  unfold the_request. cbn [req_params].
  rewrite Pq, Ps, Pl, Pla, Plo. clear Pq Ps Pl Pla Plo.
  split; [| split; [| split; [| split]]].
  - intros v [= <-].
    destruct (parse_val_str q) as (y & Hy & Hty).
    rewrite Hy in Hq. injection Hq as <-. exact Hty.
  - intros v [= <-].
    destruct (parse_val_int size) as [(y & Hy & Hty) | (s & _ & Hy)];
      rewrite Hy in Hs; [| discriminate Hs].
    injection Hs as <-. exact Hty.
  - destruct Hlv as [-> | [s ->]].
    + rewrite process_location_None in Hp. injection Hp as <-.
      simpl. discriminate.
    + destruct (String.eqb_spec s "") as [-> | Hne].
      * rewrite process_location_empty in Hp. injection Hp as <-.
        simpl. discriminate.
      * rewrite (process_location_str s Hne) in Hp. injection Hp as <-.
        simpl. rewrite !replace_every_empty.
        destruct (String.eqb_spec s ""); [congruence |]. simpl.
        intros v [= <-]. eexists. split; [reflexivity |].
        split; [| split].
        -- intros Hempty.
           apply (f_equal String.length) in Hempty.
           rewrite !replace_every_length in Hempty.
           destruct s; [congruence | discriminate Hempty].
        -- apply replace_every_keeps_absent; [discriminate |].
           apply replace_every_occurs. discriminate.
        -- apply replace_every_occurs. discriminate.
  - destruct (parse_val_float latitude)
      as [(y & Hy & [-> | [f ->]]) | (n & s & _ & _ & Hy)];
      rewrite Hy in Hla; try discriminate Hla; injection Hla as <-; simpl.
    + discriminate.
    + intros v [= <-]. eauto.
  - destruct (parse_val_float longitude)
      as [(y & Hy & [-> | [f ->]]) | (n & s & _ & _ & Hy)];
      rewrite Hy in Hlo; try discriminate Hlo; injection Hlo as <-; simpl.
    + discriminate.
    + intros v [= <-]. eauto.
Qed.

(** X8. A location that holds no underscore and no comma is sent as it
    is. *)
Theorem clean_location_sent_unchanged
    (remote : request -> http_outcome)
    (q size location latitude longitude : PyVal) (r : request) (s : string) :
  r ∈ requests_of
        (run remote
           (news_search environ q size location latitude longitude)).1 ->
  parse_val location T_str = Ret (VStr s) ->
  s <> "" ->
  occurs "_" s = false ->
  occurs "," s = false ->
  req_params r !! "location" = Some (VStr s).
Proof.
  intros Hr Hloc Hne Hu Hc.
  destruct (news_search_request environ remote _ _ _ _ _ r Hr)
    as (qv & sv & lv & lav & lov & lv' & _ & _ & Hl & _ & _ & _ & Hp
        & -> & _).
  rewrite Hloc in Hl. injection Hl as <-.
  rewrite (process_location_str s Hne) in Hp. injection Hp as <-.
  rewrite (replace_every_absent "_" " " s Hu), (replace_every_absent _ _ s Hc).
  destruct (build_params_lookup qv sv (VStr s) lav lov) as (_ & _ & Pl & _).
  unfold the_request. cbn [req_params]. rewrite Pl. simpl.
  destruct (String.eqb_spec s ""); [congruence | reflexivity].
Qed.

(** X9. Called with the query alone, [news_search] sends exactly two
    parameters: [q] with the coerced query and [size] with the default
    10. *)
Theorem default_call_params
    (remote : request -> http_outcome) (q : PyVal) (r : request) :
  r ∈ requests_of (run remote (news_search_default environ q)).1 ->
  exists query,
    parse_val q T_str = Ret query
    /\ req_params r = <["size" := VInt 10]> (<["q" := query]> ∅).
Proof.
  unfold news_search_default. intros Hr.
  destruct (news_search_request environ remote _ _ _ _ _ r Hr)
    as (qv & sv & lv & lav & lov & lv' & Hq & Hs & Hl & Hla & Hlo & _ & Hp
        & -> & _).
  injection Hs as <-. injection Hl as <-. injection Hla as <-.
  injection Hlo as <-. rewrite process_location_None in Hp.
  injection Hp as <-.
  exists qv. split; [exact Hq | reflexivity].
Qed.

(** X10. Numbers of the expected type are sent as they are: an integer
    [size] whatever its value (zero, negative, above 100), and float
    coordinates whatever their value (out of range, infinite, NaN). *)
Theorem numeric_arguments_sent_unchanged
    (remote : request -> http_outcome) (q location : PyVal)
    (n : Z) (lat lon : spec_float) (r : request) :
  r ∈ requests_of
        (run remote
           (news_search environ q (VInt n) location
              (VFloat lat) (VFloat lon))).1 ->
  req_params r !! "size" = Some (VInt n)
  /\ req_params r !! "latitude" = Some (VFloat lat)
  /\ req_params r !! "longitude" = Some (VFloat lon).
Proof.
  intros Hr.
  destruct (news_search_request environ remote _ _ _ _ _ r Hr)
    as (qv & sv & lv & lav & lov & lv' & _ & Hs & _ & Hla & Hlo & _ & _
        & -> & _).
  injection Hs as <-. injection Hla as <-. injection Hlo as <-.
  destruct (build_params_lookup qv (VInt n) lv' (VFloat lat) (VFloat lon))
    as (_ & Ps & _ & Pla & Plo).
  unfold the_request. cbn [req_params]. auto.
Qed.

End ParameterProperties.

Section CoercionNone.
Context `{Builtins}.

(** X11. Coercion to [str] of a value that is no list or dict loses the
    value only in two cases: the value is [None], or it is an integer of
    more than 4300 digits; every other such value gives a string. *)
Theorem str_coercion_None_iff (v : PyVal) :
  is_container v = false ->
  (parse_val v T_str = Ret VNone
   <-> v = VNone
       \/ exists n, v = VInt n
            /\ (max_str_digits < String.length (pretty (Z.abs n)))%nat)
  /\ (parse_val v T_str <> Ret VNone ->
      exists s, parse_val v T_str = Ret (VStr s)).
Proof.
  intros Hv.
  split; [| intros Hnot;
            destruct (parse_val_str v) as (x & Hx & [-> | [s ->]]);
            [congruence | eauto]].
  split.
  - destruct v as [| b | n | f | s | l | d]; simpl; try discriminate.
    + auto.
    + destruct (Nat.ltb_spec max_str_digits
                  (String.length (pretty (Z.abs n)))) as [Hlt | Hge];
        simpl; [eauto | discriminate].
  - intros [-> | (n & -> & Hlt)]; [reflexivity |].
    apply Nat.ltb_lt in Hlt. simpl. rewrite Hlt. reflexivity.
Qed.

End CoercionNone.

(** ** The further properties at sample calls *)

Lemma sample_numeric_request_sent (remote : request -> http_outcome) :
  sample_numeric_request ∈ requests_of (run remote sample_numeric_call).1.
Proof.
  unfold sample_numeric_call.
  change (sample_numeric_request
          ∈ requests_of
              (run remote
                 (api_request ∅
                    (build_params (VStr "election") (VInt 0) (VStr "Paris")
                       (VFloat float_10_9) (VFloat S754_nan)))).1).
  rewrite requests_of_api_request. apply list_elem_of_here.
Qed.

Lemma parse_val_idempotent_witness :
  @parse_val plain_builtins (VStr " 12 ") T_int = Ret (VInt 12)
  /\ @parse_val plain_builtins (VInt 12) T_int = Ret (VInt 12).
Proof.
  split; [reflexivity |].
  apply (@parse_val_idempotent plain_builtins (VStr " 12 ") (VInt 12) T_int).
  reflexivity.
Defined.

Lemma parse_val_outcome_witness :
  (overflows (VFloat positive_infinity) T_int = true
   /\ OverflowError = OverflowError)
  /\ VStr "10.5" = VStr "10.5".
Proof.
  split.
  - refine (@parse_val_outcome plain_builtins (VFloat positive_infinity)
              T_int _).
    discriminate.
  - refine (proj2 (proj2
      (@parse_val_outcome plain_builtins (VStr "10.5") T_other _)) eq_refl).
    discriminate.
Defined.

Lemma int_str_round_trip_witness :
  @parse_val plain_builtins (VInt (-25)) T_str = Ret (VStr "-25")
  /\ @parse_val plain_builtins (VStr "-25") T_int = Ret (VInt (-25)).
Proof.
  apply (@int_str_round_trip plain_builtins (-25)).
  vm_compute. reflexivity.
Defined.

Lemma non_exception_errors_propagate_witness :
  run remote_cancelled sample_call
  = ([Requested sample_request], Raised (mkExc CancelledError "")).
Proof.
  apply (@non_exception_errors_propagate plain_builtins ∅ remote_cancelled
           (VStr "election") (VInt 10) VNone VNone VNone sample_request
           (mkExc CancelledError "")).
  - apply sample_request_sent.
  - apply failure_no_response.
  - reflexivity.
Defined.

Lemma sample_timeout_logged :
  Logged "" (mkExc TimeoutError "") ∈ (run remote_timeout sample_call).1.
Proof.
  unfold sample_call, news_search_default.
  change (Logged "" (mkExc TimeoutError "")
          ∈ (run remote_timeout
               (api_request ∅
                  (build_params (VStr "election") (VInt 10)
                     VNone VNone VNone))).1).
  rewrite run_api_request. apply list_elem_of_further, list_elem_of_here.
Qed.

Lemma log_record_means_failure_witness :
  exists r,
    remote_failure (remote_timeout r) (mkExc TimeoutError "")
    /\ run remote_timeout sample_call
       = ([Requested r; Logged "" (mkExc TimeoutError "")],
          Returned (VDict [("status", VStr "failed"); ("reason", VStr "")])).
Proof.
  destruct (@log_record_means_failure plain_builtins ∅ remote_timeout
              (VStr "election") (VInt 10) VNone VNone VNone
              "" (mkExc TimeoutError "") sample_timeout_logged)
    as (_ & r & Hf & _ & Hrun).
  exists r. split; [exact Hf | exact Hrun].
Defined.

Lemma raised_only_by_overflow_or_non_exception_witness :
  (run remote_timeout
     (@news_search plain_builtins ∅ (VStr "election")
        (VFloat positive_infinity) VNone VNone VNone)).1 = [].
Proof.
  destruct (@raised_only_by_overflow_or_non_exception plain_builtins ∅
              remote_timeout (VStr "election") (VFloat positive_infinity)
              VNone VNone VNone
              (mkExc OverflowError "cannot convert float infinity to integer")
              eq_refl eq_refl eq_refl)
    as [[_ Hnone] | [Hne _]]; [exact Hnone | discriminate Hne].
Defined.

Lemma request_params_types_witness :
  exists s, VStr "Paris" = VStr s /\ s <> ""
            /\ occurs "_" s = false /\ occurs "," s = false.
Proof.
  apply (proj1 (proj2 (proj2
    (@request_params_types plain_builtins ∅ remote_timeout
       (VStr "election") (VInt 0) (VStr "Paris") (VFloat float_10_9)
       (VFloat S754_nan) sample_numeric_request
       (sample_numeric_request_sent remote_timeout))))).
  reflexivity.
Defined.

Lemma clean_location_sent_unchanged_witness :
  req_params sample_numeric_request !! "location" = Some (VStr "Paris").
Proof.
  apply (@clean_location_sent_unchanged plain_builtins ∅ remote_timeout
           (VStr "election") (VInt 0) (VStr "Paris") (VFloat float_10_9)
           (VFloat S754_nan) sample_numeric_request "Paris").
  - apply sample_numeric_request_sent.
  - reflexivity.
  - discriminate.
  - reflexivity.
  - reflexivity.
Defined.

Lemma default_call_params_witness :
  exists query,
    @parse_val plain_builtins (VStr "election") T_str = Ret query
    /\ req_params sample_request
       = <["size" := VInt 10]> (<["q" := query]> ∅).
Proof.
  apply (@default_call_params plain_builtins ∅ remote_timeout
           (VStr "election") sample_request).
  apply sample_request_sent.
Defined.

Lemma numeric_arguments_sent_unchanged_witness :
  req_params sample_numeric_request !! "size" = Some (VInt 0)
  /\ req_params sample_numeric_request !! "latitude"
     = Some (VFloat float_10_9)
  /\ req_params sample_numeric_request !! "longitude" = Some (VFloat S754_nan).
Proof.
  apply (@numeric_arguments_sent_unchanged plain_builtins ∅ remote_timeout
           (VStr "election") (VStr "Paris") 0 float_10_9 S754_nan
           sample_numeric_request).
  apply sample_numeric_request_sent.
Defined.

Lemma str_coercion_None_iff_witness :
  @parse_val plain_builtins VNone T_str = Ret VNone
  /\ exists s, @parse_val plain_builtins (VBool true) T_str = Ret (VStr s).
Proof.
  split.
  - apply (proj2 (proj1 (@str_coercion_None_iff plain_builtins VNone eq_refl))).
    left. reflexivity.
  - apply (proj2 (@str_coercion_None_iff plain_builtins (VBool true) eq_refl)).
    discriminate.
Defined.
